(** * go-objstore Python SDK: error mapping, retry, streaming and data model

    A shallow embedding of the client SDK under [api/sdks/python/objstore]:
    the exception hierarchy ([exceptions.py]), the data model ([models.py]),
    the three transport adapters ([rest_client.py], [grpc_client.py],
    [quic_client.py]) and the protocol-selecting facade ([client.py]).

    Network I/O is not executed: every adapter method is a function of the
    outcome of the single transport exchange it performs (an HTTP response, a
    gRPC reply, or a transport-level exception).  A method wrapped by the
    [tenacity] decorator is run against a transport that answers the k-th
    exchange with a scripted outcome, and the number of exchanges is threaded
    as state. *)

From Stdlib Require Import ZArith List String Ascii Bool Lia Arith.
From Stdlib Require Import Strings.Byte DecimalString.
Import ListNotations.

Local Open Scope string_scope.
Local Open Scope Z_scope.

Set Implicit Arguments.

(* ================================================================== *)
(** ** Python values used by the SDK *)

(** [bytes] objects. *)
Definition bytes := list byte.

(** The value produced by [response.json()]: a decoded JSON document. *)
#[warnings="-register-all"]
Inductive json : Type :=
| JNull
| JBool (b : bool)
| JInt (z : Z)
| JStr (s : string)
| JList (l : list json)
| JDict (d : list (string * json)).

(** Text is modelled as a string of 8-bit characters.  The case
    conversions, [strip] and [int] below are those of Python on ASCII text;
    [is_ascii] is the side condition under which they are relied on. *)
Definition is_ascii_char (c : ascii) : bool := Nat.ltb (nat_of_ascii c) 128.

Fixpoint is_ascii (s : string) : bool :=
  match s with
  | EmptyString => true
  | String c t => (is_ascii_char c && is_ascii t)%bool
  end.

(** [str.lower()] on ASCII text. *)
Definition lower_ascii (c : ascii) : ascii :=
  let n := nat_of_ascii c in
  if (Nat.leb 65 n && Nat.leb n 90)%bool then ascii_of_nat (n + 32) else c.

Fixpoint lower (s : string) : string :=
  match s with
  | EmptyString => EmptyString
  | String c t => String (lower_ascii c) (lower t)
  end.

(** [str.upper()] on ASCII text. *)
Definition upper_ascii (c : ascii) : ascii :=
  let n := nat_of_ascii c in
  if (Nat.leb 97 n && Nat.leb n 122)%bool then ascii_of_nat (n - 32) else c.

Fixpoint upper (s : string) : string :=
  match s with
  | EmptyString => EmptyString
  | String c t => String (upper_ascii c) (upper t)
  end.

(** [s.lstrip(c)] and [s.rstrip(c)] for a single character [c]. *)
Fixpoint lstrip_char (c : ascii) (s : string) : string :=
  match s with
  | EmptyString => EmptyString
  | String a t => if Ascii.eqb a c then lstrip_char c t else s
  end.

Fixpoint rstrip_char (c : ascii) (s : string) : string :=
  match s with
  | EmptyString => EmptyString
  | String a t =>
      match rstrip_char c t with
      | EmptyString => if Ascii.eqb a c then EmptyString else String a EmptyString
      | t' => String a t'
      end
  end.

(** [sub in s] for strings. *)
Fixpoint contains (sub s : string) : bool :=
  if prefix sub s then true
  else match s with
       | EmptyString => false
       | String _ t => contains sub t
       end.

(** [str(n)] for an [int]. *)
Definition str_of_int (z : Z) : string :=
  NilZero.string_of_int (Z.to_int z).

(** [str.strip()] for ASCII white space. *)
Definition is_space (c : ascii) : bool :=
  let n := nat_of_ascii c in
  (Nat.eqb n 32 || (Nat.leb 9 n && Nat.leb n 13))%bool.

Fixpoint lstrip (s : string) : string :=
  match s with
  | EmptyString => EmptyString
  | String c t => if is_space c then lstrip t else s
  end.

Fixpoint rstrip (s : string) : string :=
  match s with
  | EmptyString => EmptyString
  | String c t =>
      match rstrip t with
      | EmptyString => if is_space c then EmptyString else String c EmptyString
      | t' => String c t'
      end
  end.

Definition strip (s : string) : string := rstrip (lstrip s).

Definition digit_value (c : ascii) : option Z :=
  let n := nat_of_ascii c in
  if (Nat.leb 48 n && Nat.leb n 57)%bool then Some (Z.of_nat (n - 48)) else None.

(** The digits of an [int] literal: decimal digits, single underscores
    allowed between two of them. *)
Fixpoint parse_digits (acc : Z) (after_digit : bool) (s : string) : option Z :=
  match s with
  | EmptyString => if after_digit then Some acc else None
  | String c t =>
      match digit_value c with
      | Some d => parse_digits (10 * acc + d) true t
      | None =>
          if (Ascii.eqb c "_" && after_digit)%bool
          then parse_digits acc false t
          else None
      end
  end.

(** Number of decimal digits in a literal (underscores and the sign do
    not count), and the most that [int] converts:
    [sys.int_max_str_digits] at its default. *)
Fixpoint count_digits (s : string) : nat :=
  match s with
  | EmptyString => O
  | String c t =>
      match digit_value c with
      | Some _ => S (count_digits t)
      | None => count_digits t
      end
  end.

Definition int_max_str_digits : nat := 4300.

Definition parse_int_literal (t : string) : option Z :=
  if Nat.ltb int_max_str_digits (count_digits t) then None
  else parse_digits 0 false t.

(** [int(s)] for a string of ASCII characters: white space around, an
    optional sign, decimal digits with single underscores between them, at
    most [int_max_str_digits] digits.  [None] stands for [ValueError]. *)
Definition int_of_str (s : string) : option Z :=
  match strip s with
  | String "-" t => option_map Z.opp (parse_int_literal t)
  | String "+" t => parse_int_literal t
  | t => parse_int_literal t
  end.

(** [x or default] for a string [x]. *)
Definition str_or (x default : string) : string :=
  match x with EmptyString => default | _ => x end.

(** [x or None] for a string [x]. *)
Definition str_or_None (x : string) : option string :=
  match x with EmptyString => None | _ => Some x end.

(** Lookup in a [dict] with string keys. *)
Fixpoint dict_get {V : Type} (k : string) (d : list (string * V)) : option V :=
  match d with
  | [] => None
  | (k', v) :: t => if String.eqb k k' then Some v else dict_get k t
  end.

(** Lookup in the case-insensitive header mapping of [requests]/[httpx]. *)
Fixpoint headers_get (k : string) (h : list (string * string)) : option string :=
  match h with
  | [] => None
  | (k', v) :: t =>
      if String.eqb (lower k) (lower k') then Some v else headers_get k t
  end.

(* ================================================================== *)
(** ** exceptions.py *)

(** The exception classes of the SDK; [PyException] is any exception that is
    not an [ObjectStoreError] (a [ValueError] from JSON decoding, an
    [AttributeError], an untranslated transport exception). *)
Inductive ErrorClass : Type :=
| ObjectStoreError
| ObjectNotFoundError
| ConnectionError
| AuthenticationError
| ValidationError
| ServerError
| TimeoutError
| PyException (name : string).

(** An exception instance: its class, [message] and [status_code].  The
    message is whatever Python value the raise site passed. *)
Record exn : Type := mkExn {
  exn_class : ErrorClass;
  message : json;
  exn_status_code : option Z
}.

Definition new_ObjectStoreError (msg : json) (status : option Z) : exn :=
  mkExn ObjectStoreError msg status.

Definition new_ObjectNotFoundError (key : string) : exn :=
  mkExn ObjectNotFoundError (JStr ("Object not found: " ++ key)) (Some 404).

Definition new_ConnectionError (msg : json) (status : option Z) : exn :=
  mkExn ConnectionError msg status.

Definition new_AuthenticationError (msg : string) : exn :=
  mkExn AuthenticationError (JStr msg) (Some 401).

Definition new_ValidationError (msg : json) : exn :=
  mkExn ValidationError msg (Some 400).

Definition new_ServerError (msg : json) (status : option Z) : exn :=
  mkExn ServerError msg status.

Definition new_TimeoutError (msg : json) (status : option Z) : exn :=
  mkExn TimeoutError msg status.

Definition new_PyException (name : string) : exn :=
  mkExn (PyException name) JNull None.

(** The error kinds of the taxonomy, and the kind each exception class stands
    for.  The base class [ObjectStoreError] and foreign exceptions stand for
    no kind of their own. *)
Inductive ErrorKind : Type :=
| NotFound | Validation | Authentication | Server | Connection | Timeout
| Unsupported.

Definition kind_of_class (c : ErrorClass) : option ErrorKind :=
  match c with
  | ObjectNotFoundError => Some NotFound
  | ValidationError => Some Validation
  | AuthenticationError => Some Authentication
  | ServerError => Some Server
  | ConnectionError => Some Connection
  | TimeoutError => Some Timeout
  | ObjectStoreError => None
  | PyException _ => None
  end.

Definition kind_of (e : exn) : option ErrorKind := kind_of_class (exn_class e).

(** A call either returns a value or raises. *)
Inductive result (A : Type) : Type :=
| Ok (a : A)
| Raise (e : exn).

Arguments Ok {A} a.
Arguments Raise {A} e.

Definition bind {A B : Type} (r : result A) (k : A -> result B) : result B :=
  match r with
  | Ok a => k a
  | Raise e => Raise e
  end.

Notation "x <- r ;; k" := (bind r (fun x => k))
  (at level 61, r at next level, right associativity).

(** The kind surfaced by a call, if it raised an error of the taxonomy. *)
Definition raised_kind {A : Type} (r : result A) : option ErrorKind :=
  match r with
  | Ok _ => None
  | Raise e => kind_of e
  end.

Definition raises {A : Type} (r : result A) : bool :=
  match r with Ok _ => false | Raise _ => true end.

(* ================================================================== *)
(** ** models.py *)

(** [Metadata]: every scalar field is [Optional] and defaults to [None];
    [last_modified] is kept as seconds since the epoch. *)
Record Metadata : Type := mkMetadata {
  content_type : option string;
  content_encoding : option string;
  size : option Z;
  last_modified : option Z;
  etag : option string;
  custom : list (string * string)
}.

(** [Metadata()] *)
Definition Metadata_default : Metadata :=
  mkMetadata None None None None None [].

Record PutResponse : Type := mkPutResponse {
  put_success : bool;
  put_message : option string;
  put_etag : option string
}.

Record DeleteResponse : Type := mkDeleteResponse {
  delete_success : bool;
  delete_message : option string
}.

Record ExistsResponse : Type := mkExistsResponse {
  exists_ : bool
}.

Record PolicyResponse : Type := mkPolicyResponse {
  policy_success : bool;
  policy_message : option string
}.

(** [HealthStatus], a string enumeration. *)
Module HealthStatus.

Inductive t : Type := UNKNOWN | SERVING | NOT_SERVING.

(** The value of a member. *)
Definition value (s : t) : string :=
  match s with
  | UNKNOWN => "UNKNOWN"
  | SERVING => "SERVING"
  | NOT_SERVING => "NOT_SERVING"
  end.

(** [HealthStatus(v)]: the member whose value is [v]; [None] stands for the
    [ValueError] of a value that no member has. *)
Definition of_value (v : string) : option t :=
  if String.eqb v "UNKNOWN" then Some UNKNOWN
  else if String.eqb v "SERVING" then Some SERVING
  else if String.eqb v "NOT_SERVING" then Some NOT_SERVING
  else None.

End HealthStatus.

Record HealthResponse : Type := mkHealthResponse {
  health_status : HealthStatus.t;
  health_message : option string
}.

(** Validation of an [Optional[str]] field by pydantic. *)
Definition optional_str (v : json) : result (option string) :=
  match v with
  | JNull => Ok None
  | JStr s => Ok (Some s)
  | _ => Raise (new_PyException "pydantic.ValidationError")
  end.

Definition json_of_option {A : Type} (f : A -> json) (o : option A) : json :=
  match o with
  | Some a => f a
  | None => JNull
  end.

Definition json_of_str_dict (d : list (string * string)) : json :=
  JDict (map (fun kv => (fst kv, JStr (snd kv))) d).

Module LifecyclePolicy.

Record t : Type := mk {
  id : string;
  prefix : string;
  retention_seconds : option Z;
  action : string;
  destination_type : option string;
  destination_settings : list (string * string);
  days_after_creation : option Z;
  enabled : bool
}.

Definition set_retention_seconds (self : t) (v : option Z) : t :=
  mk (id self) (prefix self) v (action self) (destination_type self)
     (destination_settings self) (days_after_creation self) (enabled self).

(** [model_post_init]: fill in [retention_seconds] when it was not given. *)
Definition model_post_init (self : t) : t :=
  match days_after_creation self, retention_seconds self with
  | Some days, None =>
      set_retention_seconds self (Some (days * 86400))
  | _, None =>
      set_retention_seconds self (Some (30 * 86400))
  | _, Some _ => self
  end.

(** [LifecyclePolicy(id=..., prefix=..., ...)]: the fields are stored as
    given, omitted optional ones as [None], then [model_post_init] runs. *)
Definition init (id prefix : string) (retention_seconds : option Z)
    (action : string) (destination_type : option string)
    (destination_settings : list (string * string))
    (days_after_creation : option Z) (enabled : bool) : t :=
  model_post_init
    (mk id prefix retention_seconds action destination_type
        destination_settings days_after_creation enabled).

(** The declared fields in order: name, current value, and the [exclude]
    flag of the [Field]. *)
Definition fields (self : t) : list (string * json * bool) :=
  [ ("id", JStr (id self), false);
    ("prefix", JStr (prefix self), false);
    ("retention_seconds", json_of_option JInt (retention_seconds self), false);
    ("action", JStr (action self), false);
    ("destination_type", json_of_option JStr (destination_type self), false);
    ("destination_settings", json_of_str_dict (destination_settings self), false);
    ("days_after_creation", json_of_option JInt (days_after_creation self), true);
    ("enabled", JBool (enabled self), false) ].

Definition is_none (v : json) : bool :=
  match v with JNull => true | _ => false end.

(** [model_dump(exclude_none=...)]: fields flagged [exclude] are dropped,
    and with [exclude_none] so are the ones holding [None]. *)
Definition model_dump (exclude_none : bool) (self : t) : list (string * json) :=
  map (fun f => (fst (fst f), snd (fst f)))
      (filter (fun f => negb (snd f) && negb (exclude_none && is_none (snd (fst f))))
              (fields self)).

End LifecyclePolicy.

(* ================================================================== *)
(** ** The HTTP exchange seen by the REST and QUIC adapters *)

(** What the adapters read of a [requests.Response] / [httpx.Response]:
    [json_body] is the outcome of [response.json()], [None] when the body is
    not JSON and the call raises [ValueError]; [delivery] lists the sizes of
    the pieces in which the connection hands over the body when it is read
    as a stream (what is left after them comes as a last piece). *)
Record Response : Type := mkResponse {
  status_code : Z;
  headers : list (string * string);
  content : bytes;
  text : string;
  json_body : option json;
  delivery : list nat
}.

(** Outcome of one call on the HTTP session: a response, or one of the two
    transport exceptions the adapters translate ([Timeout] /
    [TimeoutException], [ConnectionError] / [ConnectError], the latter with
    its [str(e)]), or any other exception, which no handler catches. *)
Inductive http_outcome : Type :=
| Responded (response : Response)
| TimeoutExc
| ConnectionExc (str_e : string)
| OtherExc (name : string).

(** [response.json()] *)
Definition response_json (response : Response) : result json :=
  match json_body response with
  | Some j => Ok j
  | None => Raise (new_PyException "ValueError")
  end.

(** [obj.get(key, default)], an [AttributeError] unless [obj] is a dict. *)
Definition json_get (obj : json) (key : string) (default : json) : result json :=
  match obj with
  | JDict d =>
      match dict_get key d with
      | Some v => Ok v
      | None => Ok default
      end
  | _ => Raise (new_PyException "AttributeError")
  end.

(** [v.lower()], an [AttributeError] unless [v] is a string. *)
Definition json_lower (v : json) : result string :=
  match v with
  | JStr s => Ok (lower s)
  | _ => Raise (new_PyException "AttributeError")
  end.

(** [try: body  except Exception: handler] *)
Definition try_except_Exception {A : Type} (body : result A) (handler : result A)
  : result A :=
  match body with
  | Ok a => Ok a
  | Raise _ => handler
  end.

(** [try: body  except (n1, n2, ...): handler], for foreign exception names;
    SDK errors and other names propagate. *)
Definition try_except {A : Type} (names : list string) (body : result A)
    (handler : result A) : result A :=
  match body with
  | Ok a => Ok a
  | Raise e =>
      match exn_class e with
      | PyException n =>
          if existsb (String.eqb n) names then handler else Raise e
      | _ => Raise e
      end
  end.

(** Splitting a body into pieces of [chunk_size] bytes, the last one
    possibly shorter. *)
Fixpoint iter_slices (fuel : nat) (chunk_size : nat) (body : bytes)
  : list bytes :=
  match fuel with
  | O => []
  | S fuel' =>
      match body with
      | [] => []
      | _ => firstn chunk_size body
             :: iter_slices fuel' chunk_size (skipn chunk_size body)
      end
  end.

(** [response.aiter_bytes(chunk_size)] of httpx, which regroups what
    arrives into pieces of exactly [chunk_size] bytes and a shorter last
    one. *)
Definition aiter_bytes (chunk_size : nat) (response : Response) : list bytes :=
  iter_slices (List.length (content response)) chunk_size (content response).

(** Cutting a body into consecutive pieces of the given sizes; what is left
    comes as one more piece. *)
Fixpoint pieces (sizes : list nat) (body : bytes) : list bytes :=
  match sizes with
  | [] => match body with [] => [] | _ => [body] end
  | n :: sizes' => firstn n body :: pieces sizes' (skipn n body)
  end.

(** [response.iter_content(chunk_size)] of requests on a response asked for
    with [stream=True]: the pieces are the ones the connection delivers;
    [chunk_size] is only the amount asked for at each read and fixes none
    of their sizes. *)
Definition iter_content (chunk_size : nat) (response : Response) : list bytes :=
  pieces (delivery response) (content response).

(** [if chunk:] *)
Definition nonempty (chunk : bytes) : bool :=
  match chunk with [] => false | _ => true end.

(** A generator run to its end: the chunks it yielded, and the exception
    that ended it if it did not finish normally. *)
Record stream : Type := mkStream {
  chunks : list bytes;
  ending : option exn
}.

(** The exception a call raised, if it did. *)
Definition raised {A : Type} (r : result A) : option exn :=
  match r with Ok _ => None | Raise e => Some e end.

(* ================================================================== *)
(** ** tenacity *)

(** A call on an adapter that owns a scripted transport: the state is the
    number of exchanges performed so far. *)
Definition call (A : Type) : Type := nat -> result A * nat.

(** One attempt performs exactly one exchange and interprets its outcome. *)
Definition exchange {X A : Type} (transport : nat -> X) (body : X -> result A)
  : call A :=
  fun n => (body (transport n), S n).

(** [@retry(stop=stop_after_attempt(k), wait=..., reraise=True)].  No
    [retry=] predicate is given, so every exception is retried; when the
    attempts are used up the last exception is re-raised.  The waiting time
    between attempts is not part of the model. *)
Fixpoint retry_loop {A : Type} (more : nat) (fn : call A) : call A :=
  fun n =>
    match fn n with
    | (Ok a, n') => (Ok a, n')
    | (Raise e, n') =>
        match more with
        | O => (Raise e, n')
        | S more' => retry_loop more' fn n'
        end
    end.

Definition retry {A : Type} (stop_after_attempt : nat) (fn : call A) : call A :=
  retry_loop (pred stop_after_attempt) fn.

(** Number of attempts a call made when started on a fresh transport. *)
Definition attempts {A : Type} (c : call A) : nat := snd (c O).

(** [chunk_size=8192] *)
Definition chunk_size : nat := Z.to_nat 8192.

Definition stream_of_result (r : result (list bytes)) : stream :=
  match r with
  | Ok l => mkStream l None
  | Raise e => mkStream [] (Some e)
  end.

(** What the REST and the QUIC [health] do with the decoded body to find
    the status:
    [data.get("status", "UNKNOWN").upper()], then [HealthStatus(status_str)]
    with [ValueError] turned into [UNKNOWN]. *)
Definition health_status_of (data : json) : result HealthStatus.t :=
  v <- json_get data "status" (JStr "UNKNOWN") ;;
  status_str <- match v with
                | JStr s => Ok (upper s)
                | _ => Raise (new_PyException "AttributeError")
                end ;;
  match HealthStatus.of_value status_str with
  | Some st => Ok st
  | None => Ok HealthStatus.UNKNOWN
  end.

(* ================================================================== *)
(** ** rest_client.py *)

Module RestClient.

(** [_handle_error]: every branch raises. *)
Definition _handle_error (response : Response) : result unit :=
  if status_code response =? 404 then
    Raise (new_ObjectNotFoundError "Object not found")
  else if status_code response =? 401 then
    Raise (new_AuthenticationError "Authentication failed")
  else if status_code response =? 400 then
    message <- try_except_Exception
                 (error_data <- response_json response ;;
                  json_get error_data "message" (JStr "Validation error"))
                 (Ok (JStr (str_or (text response) "Validation error"))) ;;
    Raise (new_ValidationError message)
  else if status_code response >=? 500 then
    message <- try_except_Exception
                 (error_data <- response_json response ;;
                  json_get error_data "message" (JStr "Server error"))
                 (Ok (JStr (str_or (text response) "Server error"))) ;;
    Raise (new_ServerError message (Some (status_code response)))
  else
    Raise (new_ObjectStoreError
             (JStr ("HTTP " ++ str_of_int (status_code response) ++ ": "
                    ++ text response))
             (Some (status_code response))).

(** The [try: ... except Timeout: ... except ConnectionError as e: ...]
    frame every method puts around its session call. *)
Definition session_call {A : Type} (o : http_outcome)
    (body : Response -> result A) : result A :=
  match o with
  | Responded response => body response
  | TimeoutExc => Raise (new_TimeoutError (JStr "Request timed out") None)
  | ConnectionExc str_e =>
      Raise (new_ConnectionError (JStr ("Connection failed: " ++ str_e)) None)
  | OtherExc name => Raise (new_PyException name)
  end.

(** Body of [put]: one attempt. *)
Definition put_body (o : http_outcome) : result PutResponse :=
  session_call o (fun response =>
    if status_code response =? 201 then
      result <- response_json response ;;
      msg <- json_get result "message" (JStr "Object uploaded successfully") ;;
      data <- json_get result "data" (JDict []) ;;
      tag <- json_get data "etag" JNull ;;
      m <- optional_str msg ;;
      t <- optional_str tag ;;
      Ok (mkPutResponse true m t)
    else
      _ <- _handle_error response ;;
      Ok (mkPutResponse false (Some "Upload failed") None)).

(** Body of [get]. *)
Definition get_body (o : http_outcome) : result (bytes * Metadata) :=
  session_call o (fun response =>
    if status_code response =? 200 then
      sz <- match headers_get "Content-Length" (headers response) with
            | None => Ok 0
            | Some v =>
                match int_of_str v with
                | Some n => Ok n
                | None => Raise (new_PyException "ValueError")
                end
            end ;;
      Ok (content response,
          mkMetadata (headers_get "Content-Type" (headers response)) None
                     (Some sz) None
                     (headers_get "ETag" (headers response)) [])
    else
      _ <- _handle_error response ;;
      Ok ([], Metadata_default)).

(** [get_stream] is a generator function: calling the decorated function
    only creates the generator, so its body runs once, while the caller
    iterates. *)
Definition get_stream (o : http_outcome) : stream :=
  stream_of_result
    (session_call o (fun response =>
       if status_code response =? 200 then
         Ok (filter nonempty (iter_content chunk_size response))
       else
         _ <- _handle_error response ;;
         Ok [])).

(** Body of [delete]. *)
Definition delete_body (o : http_outcome) : result DeleteResponse :=
  session_call o (fun response =>
    if status_code response =? 200 then
      result <- response_json response ;;
      msg <- json_get result "message" (JStr "Object deleted successfully") ;;
      m <- optional_str msg ;;
      Ok (mkDeleteResponse true m)
    else
      _ <- (if status_code response =? 500 then
              try_except ["ValueError"; "KeyError"]
                (error_data <- response_json response ;;
                 v <- json_get error_data "message" (JStr EmptyString) ;;
                 message <- json_lower v ;;
                 if (contains "not found" message
                     || contains "does not exist" message)%bool
                 then Raise (new_ObjectNotFoundError "Object not found")
                 else Ok tt)
                (Ok tt)
            else Ok tt) ;;
      _ <- _handle_error response ;;
      Ok (mkDeleteResponse false (Some "Delete failed"))).

(** Body of [exists]. *)
Definition exists_body (o : http_outcome) : result ExistsResponse :=
  session_call o (fun response =>
    Ok (mkExistsResponse (status_code response =? 200))).

(** Body of [add_policy]. *)
Definition add_policy_body (o : http_outcome) : result PolicyResponse :=
  session_call o (fun response =>
    if ((status_code response =? 200) || (status_code response =? 201))%bool
    then
      result <- response_json response ;;
      msg <- json_get result "message" (JStr "Policy added successfully") ;;
      m <- optional_str msg ;;
      Ok (mkPolicyResponse true m)
    else
      _ <- _handle_error response ;;
      Ok (mkPolicyResponse false (Some "Add policy failed"))).

(** Body of [health]. *)
Definition health_body (o : http_outcome) : result HealthResponse :=
  session_call o (fun response =>
    if status_code response =? 200 then
      data <- response_json response ;;
      status <- health_status_of data ;;
      msg <- json_get data "message" JNull ;;
      m <- optional_str msg ;;
      Ok (mkHealthResponse status m)
    else
      _ <- _handle_error response ;;
      Ok (mkHealthResponse HealthStatus.UNKNOWN None)).

(** Body of [update_metadata]. *)
Definition update_metadata_body (o : http_outcome) : result PolicyResponse :=
  session_call o (fun response =>
    if status_code response =? 200 then
      result <- response_json response ;;
      msg <- json_get result "message" (JStr "Metadata updated successfully") ;;
      m <- optional_str msg ;;
      Ok (mkPolicyResponse true m)
    else if status_code response =? 201 then
      result <- response_json response ;;
      msg <- json_get result "message" (JStr "Metadata updated successfully") ;;
      m <- optional_str msg ;;
      Ok (mkPolicyResponse true m)
    else
      _ <- _handle_error response ;;
      Ok (mkPolicyResponse false (Some "Update failed"))).

(** What [__init__] keeps of its arguments for building URLs. *)
Record config : Type := mkConfig {
  base_url : string;
  api_version : string
}.

(** [__init__]: the base URL loses its trailing slashes. *)
Definition init (base_url api_version : string) : config :=
  mkConfig (rstrip_char "/" base_url) api_version.

(** [_url] *)
Definition _url (self : config) (path : string) : string :=
  let path := lstrip_char "/" path in
  if (negb (String.eqb (api_version self) EmptyString)
      && negb (prefix (api_version self) path))%bool
  then base_url self ++ "/api/" ++ api_version self ++ "/" ++ path
  else base_url self ++ "/" ++ path.

(** The URL [health] requests. *)
Definition health_url (self : config) : string := base_url self ++ "/health".

(** The methods as decorated with
    [@retry(stop=stop_after_attempt(3), wait=wait_exponential(...), reraise=True)]. *)
Section Decorated.
Variable session : nat -> http_outcome.

Definition put : call PutResponse := retry 3 (exchange session put_body).
Definition get : call (bytes * Metadata) := retry 3 (exchange session get_body).
Definition delete : call DeleteResponse := retry 3 (exchange session delete_body).
Definition exists_ : call ExistsResponse := retry 3 (exchange session exists_body).
Definition add_policy : call PolicyResponse :=
  retry 3 (exchange session add_policy_body).
Definition health : call HealthResponse := retry 3 (exchange session health_body).
Definition update_metadata : call PolicyResponse :=
  retry 3 (exchange session update_metadata_body).
End Decorated.

End RestClient.

(* ================================================================== *)
(** ** grpc_client.py *)

Module GrpcClient.

(** [grpc.StatusCode] *)
Inductive StatusCode : Type :=
| OK | CANCELLED | UNKNOWN | INVALID_ARGUMENT | DEADLINE_EXCEEDED
| NOT_FOUND | ALREADY_EXISTS | PERMISSION_DENIED | RESOURCE_EXHAUSTED
| FAILED_PRECONDITION | ABORTED | OUT_OF_RANGE | UNIMPLEMENTED | INTERNAL
| UNAVAILABLE | DATA_LOSS | UNAUTHENTICATED.

(** A [grpc.RpcError]: [code()], [details()] and [str(e)]. *)
Record RpcError : Type := mkRpcError {
  code : StatusCode;
  details : string;
  str_e : string
}.

(** Outcome of one unary call on the stub. *)
Inductive rpc_outcome (R : Type) : Type :=
| Replied (response : R)
| Failed (error : RpcError).

Arguments Replied {R} response.
Arguments Failed {R} error.

(** The protobuf [Timestamp] as the adapter uses it: its [seconds], and the
    outcome of [datetime.fromtimestamp(seconds)] on the platform at hand,
    which is a datetime or, for seconds it cannot represent, whatever it
    raises ([ValueError], [OverflowError] or [OSError]). *)
Record Timestamp : Type := mkTimestamp {
  seconds : Z;
  fromtimestamp : result Z
}.

(** The protobuf [Metadata] message: scalar fields hold their default
    (empty string, zero, empty map) when unset; only the timestamp has
    presence. *)
Record ProtoMetadata : Type := mkProtoMetadata {
  proto_content_type : string;
  proto_content_encoding : string;
  proto_size : Z;
  proto_etag : string;
  proto_custom : list (string * string);
  proto_last_modified : option Timestamp
}.

(** One message of the [Get] response stream; [metadata] is [Some] exactly
    when [HasField("metadata")]. *)
Record GetResponse : Type := mkGetResponse {
  data : bytes;
  metadata : option ProtoMetadata
}.

(** The [Get] response stream: the messages that arrive, in order, and
    the [RpcError] raised after them if the call fails. *)
Record GetResponses : Type := mkGetResponses {
  responses : list GetResponse;
  failure : option RpcError
}.

Record PutReply : Type := mkPutReply {
  reply_success : bool;
  reply_message : string;
  reply_etag : string
}.

Record DeleteReply : Type := mkDeleteReply {
  del_success : bool;
  del_message : string
}.

Record ExistsReply : Type := mkExistsReply {
  reply_exists : bool
}.

Definition StatusCode_eqb (a b : StatusCode) : bool :=
  match a, b with
  | OK, OK | CANCELLED, CANCELLED | UNKNOWN, UNKNOWN
  | INVALID_ARGUMENT, INVALID_ARGUMENT
  | DEADLINE_EXCEEDED, DEADLINE_EXCEEDED | NOT_FOUND, NOT_FOUND
  | ALREADY_EXISTS, ALREADY_EXISTS | PERMISSION_DENIED, PERMISSION_DENIED
  | RESOURCE_EXHAUSTED, RESOURCE_EXHAUSTED
  | FAILED_PRECONDITION, FAILED_PRECONDITION | ABORTED, ABORTED
  | OUT_OF_RANGE, OUT_OF_RANGE | UNIMPLEMENTED, UNIMPLEMENTED
  | INTERNAL, INTERNAL | UNAVAILABLE, UNAVAILABLE | DATA_LOSS, DATA_LOSS
  | UNAUTHENTICATED, UNAUTHENTICATED => true
  | _, _ => false
  end.

(** [_proto_to_metadata]: the model is built from the scalar fields, then
    [last_modified] is set when the message has one, which raises when the
    timestamp cannot be converted. *)
Definition _proto_to_metadata (proto_metadata : ProtoMetadata)
  : result Metadata :=
  let content_type := str_or_None (proto_content_type proto_metadata) in
  let content_encoding := str_or_None (proto_content_encoding proto_metadata) in
  let size := if proto_size proto_metadata =? 0 then None
              else Some (proto_size proto_metadata) in
  let etag := str_or_None (proto_etag proto_metadata) in
  let custom := proto_custom proto_metadata in
  match proto_last_modified proto_metadata with
  | Some last_modified =>
      dt <- fromtimestamp last_modified ;;
      Ok (mkMetadata content_type content_encoding size (Some dt) etag custom)
  | None =>
      Ok (mkMetadata content_type content_encoding size None etag custom)
  end.

(** [_handle_grpc_error]: every branch raises. *)
Definition _handle_grpc_error (error : RpcError) : result unit :=
  if StatusCode_eqb (code error) NOT_FOUND then
    Raise (new_ObjectNotFoundError (details error))
  else if StatusCode_eqb (code error) DEADLINE_EXCEEDED then
    Raise (new_TimeoutError (JStr (details error)) None)
  else if StatusCode_eqb (code error) UNAVAILABLE then
    Raise (new_ConnectionError (JStr (details error)) None)
  else if StatusCode_eqb (code error) INTERNAL then
    Raise (new_ServerError (JStr (details error)) None)
  else
    Raise (new_ObjectStoreError (JStr ("gRPC error: " ++ details error)) None).

(** [put] *)
Definition put (o : rpc_outcome PutReply) : result PutResponse :=
  match o with
  | Replied response =>
      Ok (mkPutResponse (reply_success response)
                        (Some (reply_message response))
                        (Some (reply_etag response)))
  | Failed e =>
      _ <- _handle_grpc_error e ;;
      Ok (mkPutResponse false (Some (str_e e)) None)
  end.

(** One turn of the [for response in responses] loop of [get]; an
    exception of the metadata conversion leaves the loop. *)
Definition get_step (acc : result (bytes * Metadata)) (response : GetResponse)
  : result (bytes * Metadata) :=
  a <- acc ;;
  let data := (fst a ++ data response)%list in
  match metadata response with
  | Some m =>
      md <- _proto_to_metadata m ;;
      Ok (data, md)
  | None => Ok (data, snd a)
  end.

(** [get] *)
Definition get (rs : GetResponses) : result (bytes * Metadata) :=
  acc <- fold_left get_step (responses rs) (Ok ([], Metadata_default)) ;;
  match failure rs with
  | None => Ok acc
  | Some e =>
      _ <- _handle_grpc_error e ;;
      Ok ([], Metadata_default)
  end.

(** [get_stream] *)
Definition get_stream (rs : GetResponses) : stream :=
  mkStream (filter nonempty (map data (responses rs)))
           (match failure rs with
            | None => None
            | Some e => raised (_handle_grpc_error e)
            end).

(** [delete] *)
Definition delete (o : rpc_outcome DeleteReply) : result DeleteResponse :=
  match o with
  | Replied response =>
      Ok (mkDeleteResponse (del_success response)
                           (Some (del_message response)))
  | Failed e =>
      _ <- _handle_grpc_error e ;;
      Ok (mkDeleteResponse false (Some (str_e e)))
  end.

(** [exists] *)
Definition exists_ (o : rpc_outcome ExistsReply) : result ExistsResponse :=
  match o with
  | Replied response => Ok (mkExistsResponse (reply_exists response))
  | Failed e =>
      _ <- _handle_grpc_error e ;;
      Ok (mkExistsResponse false)
  end.

(** [_metadata_to_proto]: [None] for no metadata; a field is written only
    when it is truthy, and [last_modified] is never written. *)
Definition _metadata_to_proto (metadata : option Metadata)
  : option ProtoMetadata :=
  match metadata with
  | None => None
  | Some m =>
      Some (mkProtoMetadata
              (match content_type m with Some s => s | None => EmptyString end)
              (match content_encoding m with Some s => s | None => EmptyString end)
              (match size m with Some n => n | None => 0 end)
              (match etag m with Some s => s | None => EmptyString end)
              (custom m)
              None)
  end.

(** The protobuf [LifecyclePolicy] message. *)
Record ProtoLifecyclePolicy : Type := mkProtoLifecyclePolicy {
  proto_id : string;
  proto_prefix : string;
  proto_retention_seconds : Z;
  proto_action : string;
  proto_destination_type : string;
  proto_destination_settings : list (string * string)
}.

(** The message [add_policy] builds from a policy; a field given as [None]
    stays at its default. *)
Definition add_policy_proto (policy : LifecyclePolicy.t) : ProtoLifecyclePolicy :=
  mkProtoLifecyclePolicy
    (LifecyclePolicy.id policy)
    (LifecyclePolicy.prefix policy)
    (match LifecyclePolicy.retention_seconds policy with
     | Some r => r
     | None => 0
     end)
    (LifecyclePolicy.action policy)
    (match LifecyclePolicy.destination_type policy with
     | Some s => s
     | None => EmptyString
     end)
    (LifecyclePolicy.destination_settings policy).

(** The policy [get_policies] builds from a message: [enabled] and
    [days_after_creation] are left to their defaults. *)
Definition get_policies_policy (p : ProtoLifecyclePolicy) : LifecyclePolicy.t :=
  LifecyclePolicy.init
    (proto_id p) (proto_prefix p) (Some (proto_retention_seconds p))
    (proto_action p) (str_or_None (proto_destination_type p))
    (proto_destination_settings p) None true.

Record GetPoliciesReply : Type := mkGetPoliciesReply {
  reply_policies : list ProtoLifecyclePolicy;
  policies_success : bool;
  policies_message : string
}.

Record GetPoliciesResponse : Type := mkGetPoliciesResponse {
  policies : list LifecyclePolicy.t;
  get_policies_success : bool;
  get_policies_message : option string
}.

(** [get_policies] *)
Definition get_policies (o : rpc_outcome GetPoliciesReply)
  : result GetPoliciesResponse :=
  match o with
  | Replied response =>
      Ok (mkGetPoliciesResponse
            (map get_policies_policy (reply_policies response))
            (policies_success response)
            (Some (policies_message response)))
  | Failed e =>
      _ <- _handle_grpc_error e ;;
      Ok (mkGetPoliciesResponse [] false (Some (str_e e)))
  end.

End GrpcClient.

(* ================================================================== *)
(** ** quic_client.py *)

Module QuicClient.

(** [response.json()] and [response.text] of an httpx response: both raise
    [ResponseNotRead] as long as the body of a response opened with
    [client.stream] has not been read. *)
Definition httpx_json (body_read : bool) (response : Response) : result json :=
  if body_read then response_json response
  else Raise (new_PyException "httpx.ResponseNotRead").

Definition httpx_text (body_read : bool) (response : Response) : result string :=
  if body_read then Ok (text response)
  else Raise (new_PyException "httpx.ResponseNotRead").

(** [_handle_error]: every branch raises.  [body_read] tells whether the
    body of the response it is given has been read: it has for the awaited
    calls, and has not for the response [get_stream] opens. *)
Definition _handle_error (body_read : bool) (response : Response)
  : result unit :=
  if status_code response =? 404 then
    Raise (new_ObjectNotFoundError "Object not found")
  else if status_code response =? 401 then
    Raise (new_AuthenticationError "Authentication failed")
  else if status_code response =? 400 then
    message <- try_except_Exception
                 (error_data <- httpx_json body_read response ;;
                  json_get error_data "message" (JStr "Validation error"))
                 (t <- httpx_text body_read response ;;
                  Ok (JStr (str_or t "Validation error"))) ;;
    Raise (new_ValidationError message)
  else if status_code response >=? 500 then
    message <- try_except_Exception
                 (error_data <- httpx_json body_read response ;;
                  json_get error_data "message" (JStr "Server error"))
                 (t <- httpx_text body_read response ;;
                  Ok (JStr (str_or t "Server error"))) ;;
    Raise (new_ServerError message (Some (status_code response)))
  else
    t <- httpx_text body_read response ;;
    Raise (new_ObjectStoreError
             (JStr ("HTTP " ++ str_of_int (status_code response) ++ ": " ++ t))
             (Some (status_code response))).

(** The [try: ... except httpx.TimeoutException: ... except
    httpx.ConnectError as e: ...] frame around every awaited call. *)
Definition client_call {A : Type} (o : http_outcome)
    (body : Response -> result A) : result A :=
  match o with
  | Responded response => body response
  | TimeoutExc => Raise (new_TimeoutError (JStr "Request timed out") None)
  | ConnectionExc str_e =>
      Raise (new_ConnectionError (JStr ("Connection failed: " ++ str_e)) None)
  | OtherExc name => Raise (new_PyException name)
  end.

(** [put] *)
Definition put (o : http_outcome) : result PutResponse :=
  client_call o (fun response =>
    if status_code response =? 201 then
      result <- response_json response ;;
      msg <- json_get result "message" (JStr "Object uploaded successfully") ;;
      data <- json_get result "data" (JDict []) ;;
      tag <- json_get data "etag" JNull ;;
      m <- optional_str msg ;;
      t <- optional_str tag ;;
      Ok (mkPutResponse true m t)
    else
      _ <- _handle_error true response ;;
      Ok (mkPutResponse false (Some "Upload failed") None)).

(** [get] *)
Definition get (o : http_outcome) : result (bytes * Metadata) :=
  client_call o (fun response =>
    if status_code response =? 200 then
      sz <- match headers_get "Content-Length" (headers response) with
            | None => Ok 0
            | Some v =>
                match int_of_str v with
                | Some n => Ok n
                | None => Raise (new_PyException "ValueError")
                end
            end ;;
      Ok (content response,
          mkMetadata (headers_get "Content-Type" (headers response)) None
                     (Some sz) None
                     (headers_get "ETag" (headers response)) [])
    else
      _ <- _handle_error true response ;;
      Ok ([], Metadata_default)).

(** [get_stream]: the response comes from [client.stream], so its body is
    unread when a status other than 200 sends it to [_handle_error]. *)
Definition get_stream (o : http_outcome) : stream :=
  stream_of_result
    (client_call o (fun response =>
       if status_code response =? 200 then
         Ok (filter nonempty (aiter_bytes chunk_size response))
       else
         _ <- _handle_error false response ;;
         Ok [])).

(** [delete] *)
Definition delete (o : http_outcome) : result DeleteResponse :=
  client_call o (fun response =>
    if status_code response =? 200 then
      result <- response_json response ;;
      msg <- json_get result "message" (JStr "Object deleted successfully") ;;
      m <- optional_str msg ;;
      Ok (mkDeleteResponse true m)
    else
      _ <- _handle_error true response ;;
      Ok (mkDeleteResponse false (Some "Delete failed"))).

(** [exists] *)
Definition exists_ (o : http_outcome) : result ExistsResponse :=
  client_call o (fun response =>
    Ok (mkExistsResponse (status_code response =? 200))).

(** [update_metadata] *)
Definition update_metadata (o : http_outcome) : result PolicyResponse :=
  client_call o (fun response =>
    if status_code response =? 200 then
      result <- response_json response ;;
      msg <- json_get result "message" (JStr "Metadata updated successfully") ;;
      m <- optional_str msg ;;
      Ok (mkPolicyResponse true m)
    else
      _ <- _handle_error true response ;;
      Ok (mkPolicyResponse false (Some "Update failed"))).

(** What [__init__] keeps of its arguments for building URLs. *)
Record config : Type := mkConfig {
  base_url : string;
  api_version : string
}.

Definition init (base_url api_version : string) : config :=
  mkConfig (rstrip_char "/" base_url) api_version.

(** [_url] *)
Definition _url (self : config) (path : string) : string :=
  let path := lstrip_char "/" path in
  if (negb (String.eqb (api_version self) EmptyString)
      && negb (prefix (api_version self) path))%bool
  then base_url self ++ "/api/" ++ api_version self ++ "/" ++ path
  else base_url self ++ "/" ++ path.

(** The URL [health] requests. *)
Definition health_url (self : config) : string := _url self "health".

Section Health.
(** [str(e)] of a caught exception. *)
Variable str : exn -> string.

(** [health]: besides the two translated transport exceptions, a last
    [except Exception] clause turns whatever else the body raised into a
    [ConnectionError]. *)
Definition health (o : http_outcome) : result HealthResponse :=
  match o with
  | TimeoutExc => Raise (new_TimeoutError (JStr "Request timed out") None)
  | ConnectionExc str_e =>
      Raise (new_ConnectionError
               (JStr ("Connection failed: All connection attempts failed. "
                      ++ str_e)) None)
  | OtherExc name =>
      Raise (new_ConnectionError
               (JStr ("Connection failed: " ++ str (new_PyException name))) None)
  | Responded response =>
      match (if status_code response =? 200 then
               data <- response_json response ;;
               status <- health_status_of data ;;
               msg <- json_get data "message" JNull ;;
               m <- optional_str msg ;;
               Ok (mkHealthResponse status m)
             else
               _ <- _handle_error true response ;;
               Ok (mkHealthResponse HealthStatus.UNKNOWN None))
      with
      | Ok r => Ok r
      | Raise e =>
          Raise (new_ConnectionError (JStr ("Connection failed: " ++ str e)) None)
      end
  end.
End Health.

End QuicClient.

(* ================================================================== *)
(** ** client.py *)

Module ObjectStoreClient.

(** The adapter chosen by [__init__] from [protocol], together with the
    scripted transport it owns.  [G] is the reply type of the gRPC method
    behind the operation at hand. *)
Inductive client (G : Type) : Type :=
| REST (session : nat -> http_outcome)
| GRPC (stub : nat -> G)
| QUIC (http : nat -> http_outcome).

Arguments REST {G} session.
Arguments GRPC {G} stub.
Arguments QUIC {G} http.

(** [_run_async], for a caller that is not inside an event loop: the
    coroutine is driven to completion and its value returned or its
    exception raised. *)
Definition _run_async {A : Type} (coro : call A) : call A := coro.

Definition put (self : client (GrpcClient.rpc_outcome GrpcClient.PutReply))
  : call PutResponse :=
  match self with
  | QUIC http => _run_async (exchange http QuicClient.put)
  | REST session => RestClient.put session
  | GRPC stub => exchange stub GrpcClient.put
  end.

Definition get (self : client GrpcClient.GetResponses)
  : call (bytes * Metadata) :=
  match self with
  | QUIC http => _run_async (exchange http QuicClient.get)
  | REST session => RestClient.get session
  | GRPC stub => exchange stub GrpcClient.get
  end.

(** [get_stream], consumed to its end; [n] is the exchange that serves the
    request. *)
Definition get_stream (self : client GrpcClient.GetResponses) (n : nat)
  : stream :=
  match self with
  | QUIC http => QuicClient.get_stream (http n)
  | REST session => RestClient.get_stream (session n)
  | GRPC stub => GrpcClient.get_stream (stub n)
  end.

Definition delete
    (self : client (GrpcClient.rpc_outcome GrpcClient.DeleteReply))
  : call DeleteResponse :=
  match self with
  | QUIC http => _run_async (exchange http QuicClient.delete)
  | REST session => RestClient.delete session
  | GRPC stub => exchange stub GrpcClient.delete
  end.

Definition exists_
    (self : client (GrpcClient.rpc_outcome GrpcClient.ExistsReply))
  : call ExistsResponse :=
  match self with
  | QUIC http => _run_async (exchange http QuicClient.exists_)
  | REST session => RestClient.exists_ session
  | GRPC stub => exchange stub GrpcClient.exists_
  end.

End ObjectStoreClient.


(** What three attempts amount to, spelled out on the outcomes of exchanges
    [n], [n+1] and [n+2]: an attempt that raises, whatever it raises, is
    followed by another one until the third. *)
Definition three_attempts {X A : Type} (transport : nat -> X)
    (body : X -> result A) (n : nat) : result A * nat :=
  match body (transport n) with
  | Ok a => (Ok a, S n)
  | Raise _ =>
      match body (transport (S n)) with
      | Ok a => (Ok a, S (S n))
      | Raise _ => (body (transport (S (S n))), S (S (S n)))
      end
  end.

(* ================================================================== *)
(** ** Concrete exchanges *)

(** A string between double quotes, and the text of a JSON object with the
    single member [message]. *)
Definition quoted (s : string) : string :=
  String (ascii_of_nat 34) (s ++ String (ascii_of_nat 34) EmptyString).

Definition message_envelope (m : string) : string :=
  "{" ++ quoted "message" ++ ": " ++ quoted m ++ "}".

(** A response whose body is the given text. *)
Definition text_response (status : Z) (hdrs : list (string * string))
    (body : string) (decoded : option json) : Response :=
  mkResponse status hdrs (list_byte_of_string body) body decoded [].

(** A response whose body is a JSON object with the single member
    [message]. *)
Definition message_response (status : Z) (m : string) : Response :=
  text_response status [("Content-Type", "application/json")]
                (message_envelope m) (Some (JDict [("message", JStr m)])).

(** A server that rejects every request with 400. *)
Definition bad_request : Response := message_response 400 "invalid key".

Definition always_bad_request : nat -> http_outcome :=
  fun _ => Responded bad_request.

(** A server that is unreachable twice and then stores the object. *)
Definition created : Response :=
  message_response 201 "ok".

Definition third_time_lucky : nat -> http_outcome :=
  fun n => match n with
           | O => ConnectionExc "refused"
           | S O => TimeoutExc
           | _ => Responded created
           end.

(** A status the error mapping has no case for, and a gRPC failure code it
    has no case for. *)
Definition teapot : Response := text_response 418 [] "short and stout" None.

Definition unauthenticated : GrpcClient.RpcError :=
  GrpcClient.mkRpcError GrpcClient.UNAUTHENTICATED "token expired"
                        "<_InactiveRpcError UNAUTHENTICATED>".

(** The metadata submessage of the last, and of the first, message of a
    response stream that bears one. *)
Fixpoint last_metadata (rs : list GrpcClient.GetResponse)
  : option GrpcClient.ProtoMetadata :=
  match rs with
  | [] => None
  | r :: t =>
      match last_metadata t with
      | Some m => Some m
      | None => GrpcClient.metadata r
      end
  end.

Fixpoint first_metadata (rs : list GrpcClient.GetResponse)
  : option GrpcClient.ProtoMetadata :=
  match rs with
  | [] => None
  | r :: t =>
      match GrpcClient.metadata r with
      | Some m => Some m
      | None => first_metadata t
      end
  end.

Definition metadata_or_default (m : option GrpcClient.ProtoMetadata)
  : result Metadata :=
  match m with
  | Some p => GrpcClient._proto_to_metadata p
  | None => Ok Metadata_default
  end.

(** The metadata of a message, if it bears any, has a modification time
    that the platform converts, or none. *)
Definition converts (r : GrpcClient.GetResponse) : Prop :=
  match GrpcClient.metadata r with
  | Some p => raises (GrpcClient._proto_to_metadata p) = false
  | None => True
  end.

(** A response stream in which two messages bear metadata. *)
Definition first_meta : GrpcClient.ProtoMetadata :=
  GrpcClient.mkProtoMetadata "text/plain" EmptyString 11 "first" [] None.

Definition second_meta : GrpcClient.ProtoMetadata :=
  GrpcClient.mkProtoMetadata "text/html" EmptyString 5 "second" [] None.

Definition two_metadata_messages : GrpcClient.GetResponses :=
  GrpcClient.mkGetResponses
    [ GrpcClient.mkGetResponse (list_byte_of_string "hello ") (Some first_meta);
      GrpcClient.mkGetResponse (list_byte_of_string "world") (Some second_meta) ]
    None.

(** Two 500 responses to a DELETE that differ in their message only. *)
Definition missing_as_500 : Response := message_response 500 "Object Not Found".

Definition disk_failure_500 : Response := message_response 500 "disk failure".

(** A 404 response. *)
Definition missing_404 : Response := message_response 404 "no such object".

(** gRPC failures of an [Exists] call. *)
Definition key_not_found : GrpcClient.RpcError :=
  GrpcClient.mkRpcError GrpcClient.NOT_FOUND "no such key"
                        "<_InactiveRpcError NOT_FOUND>".

Definition internal_failure : GrpcClient.RpcError :=
  GrpcClient.mkRpcError GrpcClient.INTERNAL "backend down"
                        "<_InactiveRpcError INTERNAL>".

(** A call raised nothing but a connection-level SDK error or an exception
    foreign to the SDK. *)
Definition connection_level_only {A : Type} (r : result A) : Prop :=
  match r with
  | Ok _ => True
  | Raise e =>
      exn_class e = ConnectionError \/ exn_class e = TimeoutError \/
      exists name, exn_class e = PyException name
  end.


Definition hello_200 : Response :=
  text_response 200 [("Content-Type", "text/plain"); ("content-length", "5");
                     ("ETag", "abc123")] "hello" None.

Definition empty_200 : Response :=
  text_response 200 [("Content-Length", "0")] EmptyString None.

(** A gRPC download in three messages, the middle one without data. *)
Definition three_messages : GrpcClient.GetResponses :=
  GrpcClient.mkGetResponses
    [ GrpcClient.mkGetResponse (list_byte_of_string "hel") (Some first_meta);
      GrpcClient.mkGetResponse [] None;
      GrpcClient.mkGetResponse (list_byte_of_string "lo") None ]
    None.

(** A session that times out once and then serves the object. *)
Definition flaky_session : nat -> http_outcome :=
  fun n => match n with
           | O => TimeoutExc
           | _ => Responded hello_200
           end.

(** A 200 response whose body is 1 MiB of zero bytes. *)
Definition one_mib : bytes := repeat x00 (Z.to_nat 1048576).

Definition one_mib_200 : Response :=
  mkResponse 200 [("Content-Length", "1048576")] one_mib EmptyString None [].

(** A server that never answers in time. *)
Definition always_timeout : nat -> http_outcome := fun _ => TimeoutExc.

(** A 200 response whose [Content-Length] header is not a number. *)
Definition bad_length_200 : Response :=
  text_response 200 [("Content-Length", "five")] "hello" None.

(** A gRPC download that fails after two messages have arrived. *)
Definition broken_download : GrpcClient.GetResponses :=
  GrpcClient.mkGetResponses
    [ GrpcClient.mkGetResponse (list_byte_of_string "hel") (Some first_meta);
      GrpcClient.mkGetResponse (list_byte_of_string "lo") None ]
    (Some internal_failure).

(** The JSON bodies on which [error_data.get("message", "").lower()] raises
    [AttributeError]: anything but an object, and an object whose [message]
    is not a string. *)
Definition message_not_readable (j : json) : bool :=
  match j with
  | JDict d =>
      match dict_get "message" d with
      | None => false
      | Some (JStr _) => false
      | Some _ => true
      end
  | _ => true
  end.

(** A 500 response whose JSON body has a null message. *)
Definition null_message_500 : Response :=
  text_response 500 [] "{}" (Some (JDict [("message", JNull)])).

(** A metadata value as a caller would pass it to the gRPC adapter. *)
Definition report_meta : Metadata :=
  mkMetadata (Some "application/pdf") (Some "gzip") (Some 1024)
             (Some 1700000000) (Some "abc123") [("author", "test")].

(** A disabled archive policy given in days. *)
Definition archive_policy : LifecyclePolicy.t :=
  LifecyclePolicy.init "p1" "logs/" None "archive" (Some "glacier")
                       [("region", "us-east-1")] (Some 7) false.

(** The health status a status text stands for when letter case is
    ignored. *)
Definition status_of_text (s : string) : HealthStatus.t :=
  if String.eqb (lower s) "serving" then HealthStatus.SERVING
  else if String.eqb (lower s) "not_serving" then HealthStatus.NOT_SERVING
  else HealthStatus.UNKNOWN.

(** A member of a JSON object that is either absent or a string. *)
Definition text_member (key : string) (d : list (string * json))
    (v : option string) : Prop :=
  dict_get key d = option_map JStr v.

(** Health bodies. *)
Definition healthy_200 : Response :=
  text_response 200 [] "{}"
    (Some (JDict [("status", JStr "Serving"); ("message", JStr "healthy")])).

Definition created_201 : Response := message_response 201 "created".

(** [str(e)] of an exception whose message is a string. *)
Definition str_of_message (e : exn) : string :=
  match message e with
  | JStr s => s
  | _ => EmptyString
  end.

(** Metadata messages with a modification time: one the platform converts,
    and one beyond the years a datetime can hold. *)
Definition dated_meta : GrpcClient.ProtoMetadata :=
  GrpcClient.mkProtoMetadata "text/plain" EmptyString 5 "abc123" []
    (Some (GrpcClient.mkTimestamp 1700000000 (Ok 1700000000))).

Definition far_future_meta : GrpcClient.ProtoMetadata :=
  GrpcClient.mkProtoMetadata "text/plain" EmptyString 5 "abc123" []
    (Some (GrpcClient.mkTimestamp 253402300800
             (Raise (new_PyException "ValueError")))).

Definition far_future_download : GrpcClient.GetResponses :=
  GrpcClient.mkGetResponses
    [ GrpcClient.mkGetResponse (list_byte_of_string "hello")
                               (Some far_future_meta) ]
    None.

(** A 200 response whose body the connection delivers in pieces of 3, 0 and
    1 bytes and a rest. *)
Definition trickled_200 : Response :=
  mkResponse 200 [("Content-Length", "5")] (list_byte_of_string "hello")
             "hello" None [3%nat; 0%nat; 1%nat].

(** A 500 response as [get_stream] meets it. *)
Definition plain_500 : Response := text_response 500 [] "boom" None.
(* ================================================================== *)
(** * Properties *)

(** ** Sanity checks of the primitives *)

Example lower_ex : lower "Object NOT Found" = "object not found".
Proof. reflexivity. Qed.

Example contains_ex :
  contains "not found" "object not found" = true /\
  contains "not found" "no such key" = false.
Proof. split; reflexivity. Qed.

Example str_of_int_ex : str_of_int 418 = "418".
Proof. reflexivity. Qed.

Example int_of_str_ex :
  int_of_str "9" = Some 9 /\ int_of_str " 1_048_576 " = Some 1048576 /\
  int_of_str "-5" = Some (-5) /\ int_of_str "+5" = Some 5 /\
  int_of_str EmptyString = None /\ int_of_str "-" = None /\
  int_of_str "abc" = None /\ int_of_str "1__0" = None /\
  int_of_str "5_" = None.
Proof. repeat split; reflexivity. Qed.

Example lifecycle_30_days :
  LifecyclePolicy.retention_seconds
    (LifecyclePolicy.init "p" "logs/" None "delete" None [] (Some 30) true)
  = Some 2592000.
Proof. reflexivity. Qed.

Example lifecycle_dump :
  LifecyclePolicy.model_dump true
    (LifecyclePolicy.init "p" "logs/" None "delete" None [] (Some 30) true)
  = [ ("id", JStr "p"); ("prefix", JStr "logs/");
      ("retention_seconds", JInt 2592000); ("action", JStr "delete");
      ("destination_settings", JDict []); ("enabled", JBool true) ].
Proof. reflexivity. Qed.

(** ** Retry loop *)

Section RetryFacts.
Context {X A : Type}.
Variable transport : nat -> X.
Variable body : X -> result A.

Lemma retry_3_unfold (n : nat) :
  retry 3 (exchange transport body) n = three_attempts transport body n.
Proof.
  unfold retry, three_attempts, exchange; simpl.
  destruct (body (transport n)); [reflexivity|].
  destruct (body (transport (S n))); [reflexivity|].
  destruct (body (transport (S (S n)))); reflexivity.
Qed.

Lemma retry_loop_exchange (more n : nat) :
  retry_loop more (exchange transport body) n =
  match body (transport n) with
  | Ok a => (Ok a, S n)
  | Raise e =>
      match more with
      | O => (Raise e, S n)
      | S more' => retry_loop more' (exchange transport body) (S n)
      end
  end.
Proof. destruct more; reflexivity. Qed.

(** A value returned by the loop is the value of the last exchange made. *)
Lemma retry_loop_Ok (more n n' : nat) (a : A) :
  retry_loop more (exchange transport body) n = (Ok a, n') ->
  (n < n')%nat /\ body (transport (pred n')) = Ok a.
Proof.
  revert n. induction more as [|more IH]; intros n;
    rewrite retry_loop_exchange; destruct (body (transport n)) eqn:E;
    intros H.
  - inversion H; subst. simpl. split; [lia | assumption].
  - discriminate H.
  - inversion H; subst. simpl. split; [lia | assumption].
  - apply IH in H. destruct H as [Hlt Hb]. split; [lia | assumption].
Qed.

(** Whatever the loop delivers is what one of its attempts delivered. *)
Lemma retry_loop_some_attempt (more n : nat) :
  exists k, (k <= more)%nat /\
    retry_loop more (exchange transport body) n
    = (body (transport (n + k)%nat), S (n + k)).
Proof.
  revert n. induction more as [|more IH]; intros n;
    rewrite retry_loop_exchange; destruct (body (transport n)) eqn:E.
  - exists O. rewrite Nat.add_0_r, E. split; [lia | reflexivity].
  - exists O. rewrite Nat.add_0_r, E. split; [lia | reflexivity].
  - exists O. rewrite Nat.add_0_r, E. split; [lia | reflexivity].
  - destruct (IH (S n)) as [k [Hk Hr]]. exists (S k). split; [lia|].
    rewrite Hr. replace (S n + k)%nat with (n + S k)%nat by lia. reflexivity.
Qed.

(** A property of every single attempt is a property of the decorated call. *)
Lemma retry_preserves (P : result A -> Prop) (k n : nat) :
  (forall o, P (body o)) ->
  P (fst (retry k (exchange transport body) n)).
Proof.
  intros HP. unfold retry.
  destruct (retry_loop_some_attempt (pred k) n) as [j [_ Hr]].
  rewrite Hr. simpl. apply HP.
Qed.

(** An attempt that returns ends the loop at once. *)
Lemma retry_first_Ok (k n : nat) (a : A) :
  body (transport n) = Ok a ->
  retry k (exchange transport body) n = (Ok a, S n).
Proof.
  intros H. unfold retry. rewrite retry_loop_exchange, H. reflexivity.
Qed.
End RetryFacts.

(** ** Lifecycle policy defaults *)

Lemma model_dump_keys (exclude_none : bool) (p : LifecyclePolicy.t) (k : string) :
  In k (map fst (LifecyclePolicy.model_dump exclude_none p)) ->
  In k ["id"; "prefix"; "retention_seconds"; "action"; "destination_type";
        "destination_settings"; "enabled"].
Proof.
  unfold LifecyclePolicy.model_dump, LifecyclePolicy.fields.
  rewrite map_map. intros H. apply in_map_iff in H.
  destruct H as [[[name v] ex] [Hk Hin]]. simpl in Hk. subst k.
  apply filter_In in Hin. destruct Hin as [Hin Hkeep].
  simpl in Hin.
  repeat (destruct Hin as [Hin | Hin];
          [ inversion Hin; subst; simpl in *;
            first [ discriminate | intuition auto ] | ]).
  contradiction.
Qed.

(** C4: a LifecyclePolicy built without retention_seconds gets
    days_after_creation * 86400 when the days are given (2592000 for 30
    days) and 2592000 when they are not; a given retention_seconds is kept
    whatever the days; and no serialization of any policy, with or without
    exclude_none, has a days_after_creation entry. *)
Theorem C4_lifecycle_policy_retention :
  (forall id prefix action dtype dsettings days enabled,
      LifecyclePolicy.retention_seconds
        (LifecyclePolicy.init id prefix None action dtype dsettings
                              (Some days) enabled)
      = Some (days * 86400)) /\
  (forall id prefix action dtype dsettings enabled,
      LifecyclePolicy.retention_seconds
        (LifecyclePolicy.init id prefix None action dtype dsettings
                              (Some 30) enabled)
      = Some 2592000) /\
  (forall id prefix action dtype dsettings enabled,
      LifecyclePolicy.retention_seconds
        (LifecyclePolicy.init id prefix None action dtype dsettings
                              None enabled)
      = Some 2592000) /\
  (forall id prefix retention action dtype dsettings days enabled,
      LifecyclePolicy.retention_seconds
        (LifecyclePolicy.init id prefix (Some retention) action dtype dsettings
                              days enabled)
      = Some retention) /\
  (forall exclude_none p,
      ~ In "days_after_creation"
           (map fst (LifecyclePolicy.model_dump exclude_none p)) /\
      dict_get "days_after_creation"
               (LifecyclePolicy.model_dump exclude_none p) = None).
Proof.
  repeat split; intros; try reflexivity.
  - destruct days; reflexivity.
  - intros H. apply model_dump_keys in H. simpl in H.
    repeat (destruct H as [H | H]; [discriminate H|]). contradiction.
  - destruct p as [i pf r a dt ds d e].
    unfold LifecyclePolicy.model_dump, LifecyclePolicy.fields. simpl.
    destruct exclude_none, r, dt, d; reflexivity.
Qed.

(** ** Retry *)

(** C1, as stated, fails: against a server that answers every request with
    400, the first attempt of the REST [put] raises a Validation error, and
    the call still makes three attempts instead of one. *)
Lemma C1_put_validation_error_is_retried :
  raised_kind (RestClient.put_body (always_bad_request 0%nat)) = Some Validation /\
  attempts (ObjectStoreClient.put (ObjectStoreClient.REST always_bad_request))
  = 3%nat /\
  attempts (ObjectStoreClient.put (ObjectStoreClient.REST always_bad_request))
  <> 1%nat.
Proof. repeat split. intros H. vm_compute in H. discriminate H. Qed.

(** C1 (amended): the REST adapter wraps its operations, put and add_policy
    included, in a retry of three attempts that goes on after any raised
    error, whatever its kind, stops at the first attempt that returns, and
    re-raises the error of the third attempt; the gRPC and QUIC adapters and
    the facade add no retry, so there every call is exactly one exchange
    whose outcome is returned or raised as it is. *)
Theorem C1_retry_inside_rest_adapter_only :
  (forall session n,
      ObjectStoreClient.put (ObjectStoreClient.REST session) n
      = three_attempts session RestClient.put_body n /\
      RestClient.add_policy session n
      = three_attempts session RestClient.add_policy_body n /\
      ObjectStoreClient.get (ObjectStoreClient.REST session) n
      = three_attempts session RestClient.get_body n /\
      ObjectStoreClient.delete (ObjectStoreClient.REST session) n
      = three_attempts session RestClient.delete_body n /\
      ObjectStoreClient.exists_ (ObjectStoreClient.REST session) n
      = three_attempts session RestClient.exists_body n) /\
  (forall stub n,
      ObjectStoreClient.put (ObjectStoreClient.GRPC stub) n
      = (GrpcClient.put (stub n), S n)) /\
  (forall stub n,
      ObjectStoreClient.get (ObjectStoreClient.GRPC stub) n
      = (GrpcClient.get (stub n), S n)) /\
  (forall stub n,
      ObjectStoreClient.delete (ObjectStoreClient.GRPC stub) n
      = (GrpcClient.delete (stub n), S n)) /\
  (forall stub n,
      ObjectStoreClient.exists_ (ObjectStoreClient.GRPC stub) n
      = (GrpcClient.exists_ (stub n), S n)) /\
  (forall http n,
      ObjectStoreClient.put (ObjectStoreClient.QUIC http) n
      = (QuicClient.put (http n), S n)) /\
  (forall http n,
      ObjectStoreClient.get (ObjectStoreClient.QUIC http) n
      = (QuicClient.get (http n), S n)) /\
  (forall http n,
      ObjectStoreClient.delete (ObjectStoreClient.QUIC http) n
      = (QuicClient.delete (http n), S n)) /\
  (forall http n,
      ObjectStoreClient.exists_ (ObjectStoreClient.QUIC http) n
      = (QuicClient.exists_ (http n), S n)).
Proof.
  split.
  - intros session n. cbn [ObjectStoreClient.put ObjectStoreClient.get
      ObjectStoreClient.delete ObjectStoreClient.exists_].
    unfold RestClient.put, RestClient.add_policy, RestClient.get,
      RestClient.delete, RestClient.exists_.
    repeat split; apply retry_3_unfold.
  - repeat split; intros; reflexivity.
Qed.

(** The retry does recover a put: two connection-level failures, then a
    201, give the success result after three exchanges. *)
Example put_third_time_lucky :
  ObjectStoreClient.put (ObjectStoreClient.REST third_time_lucky) 0%nat
  = (Ok (mkPutResponse true (Some "ok") None), 3%nat).
Proof. reflexivity. Qed.

(** ** Error mapping *)

Lemma geb_500_false (z : Z) : z < 500 -> (z >=? 500) = false.
Proof. intros H. rewrite Z.geb_leb. apply Z.leb_gt. exact H. Qed.

Lemma rest_handle_error_raises (response : Response) :
  exists e, RestClient._handle_error response = Raise e.
Proof.
  unfold RestClient._handle_error.
  repeat match goal with
         | |- context [if ?c then _ else _] => destruct c
         end; try (eexists; reflexivity);
  match goal with
  | |- context [try_except_Exception ?b ?h] =>
      destruct b; simpl; eexists; reflexivity
  end.
Qed.

(** On a response whose body has been read the two HTTP adapters map errors
    alike. *)
Lemma quic_handle_error_eq (response : Response) :
  QuicClient._handle_error true response = RestClient._handle_error response.
Proof. reflexivity. Qed.

Lemma grpc_handle_error_raises (error : GrpcClient.RpcError) :
  exists e, GrpcClient._handle_grpc_error error = Raise e.
Proof.
  unfold GrpcClient._handle_grpc_error.
  destruct (GrpcClient.code error); simpl; eexists; reflexivity.
Qed.

(** C2, as stated, fails: status 418 and gRPC code UNAUTHENTICATED are both
    unmapped, and neither surfaces as an error of the Server kind; what is
    raised is the base ObjectStoreError, and its message is the raw text
    behind a prefix. *)
Lemma C2_unmapped_signal_is_not_server_kind :
  RestClient._handle_error teapot
  = Raise (mkExn ObjectStoreError (JStr "HTTP 418: short and stout") (Some 418)) /\
  raised_kind (RestClient._handle_error teapot) <> Some Server /\
  GrpcClient._handle_grpc_error unauthenticated
  = Raise (mkExn ObjectStoreError (JStr "gRPC error: token expired") None) /\
  raised_kind (GrpcClient._handle_grpc_error unauthenticated) <> Some Server.
Proof. repeat split; intros H; vm_compute in H; discriminate H. Qed.

(** C2 (amended): a signal the mapping has no case for (an HTTP status
    other than 404, 401, 400 and below 500 for the REST adapter; a gRPC code
    other than NOT_FOUND, DEADLINE_EXCEEDED, UNAVAILABLE and INTERNAL for
    the gRPC adapter) is raised as the base ObjectStoreError, which is none
    of the taxonomy kinds; its message is the raw text behind a fixed prefix
    ("HTTP <status>: <body text>", with the status code attached, or
    "gRPC error: <details>"). *)
Theorem C2_unmapped_signal_raises_base_error :
  (forall response,
      status_code response <> 404 ->
      status_code response <> 401 ->
      status_code response <> 400 ->
      status_code response < 500 ->
      let e := new_ObjectStoreError
                 (JStr ("HTTP " ++ str_of_int (status_code response) ++ ": "
                        ++ text response))
                 (Some (status_code response)) in
      RestClient._handle_error response = Raise e /\
      exn_class e = ObjectStoreError /\ kind_of e = None) /\
  (forall error,
      GrpcClient.code error <> GrpcClient.NOT_FOUND ->
      GrpcClient.code error <> GrpcClient.DEADLINE_EXCEEDED ->
      GrpcClient.code error <> GrpcClient.UNAVAILABLE ->
      GrpcClient.code error <> GrpcClient.INTERNAL ->
      let e := new_ObjectStoreError
                 (JStr ("gRPC error: " ++ GrpcClient.details error)) None in
      GrpcClient._handle_grpc_error error = Raise e /\
      exn_class e = ObjectStoreError /\ kind_of e = None).
Proof.
  split.
  - intros response H404 H401 H400 H500 e.
    assert (Hr : RestClient._handle_error response = Raise e).
    { unfold RestClient._handle_error.
      rewrite (proj2 (Z.eqb_neq _ _) H404), (proj2 (Z.eqb_neq _ _) H401),
        (proj2 (Z.eqb_neq _ _) H400), (geb_500_false H500).
      reflexivity. }
    repeat split; try assumption.
  - intros error Hnf Hde Hun Hin e.
    unfold GrpcClient._handle_grpc_error.
    destruct (GrpcClient.code error); try contradiction; repeat split.
Qed.

(** Status 418 and gRPC code UNAUTHENTICATED meet the conditions. *)
Lemma C2_unmapped_signal_witness :
  (RestClient._handle_error teapot
   = Raise (new_ObjectStoreError (JStr "HTTP 418: short and stout") (Some 418))) /\
  (GrpcClient._handle_grpc_error unauthenticated
   = Raise (new_ObjectStoreError (JStr "gRPC error: token expired") None)).
Proof.
  split.
  - apply (proj1 C2_unmapped_signal_raises_base_error teapot);
      simpl; lia.
  - apply (proj2 C2_unmapped_signal_raises_base_error unauthenticated);
      simpl; discriminate.
Defined.

(** ** gRPC download *)

Lemma get_fold_raise (rs : list GrpcClient.GetResponse) (e : exn) :
  fold_left GrpcClient.get_step rs (Raise e) = Raise e.
Proof. induction rs as [|r t IH]; [reflexivity | exact IH]. Qed.

Lemma get_step_Ok (acc : bytes * Metadata) (r : GrpcClient.GetResponse) :
  GrpcClient.get_step (Ok acc) r
  = match GrpcClient.metadata r with
    | Some p =>
        match GrpcClient._proto_to_metadata p with
        | Ok md => Ok ((fst acc ++ GrpcClient.data r)%list, md)
        | Raise e => Raise e
        end
    | None => Ok ((fst acc ++ GrpcClient.data r)%list, snd acc)
    end.
Proof.
  unfold GrpcClient.get_step, bind.
  destruct (GrpcClient.metadata r) as [p|]; reflexivity.
Qed.

(** The bytes gathered by a loop that ran to its end. *)
Lemma get_fold_data (rs : list GrpcClient.GetResponse) :
  forall acc d m,
    fold_left GrpcClient.get_step rs (Ok acc) = Ok (d, m) ->
    d = (fst acc ++ List.concat (map GrpcClient.data rs))%list.
Proof.
  induction rs as [|r t IH]; intros acc d m H; cbn [fold_left] in H.
  - inversion H. simpl. rewrite app_nil_r. reflexivity.
  - rewrite get_step_Ok in H. cbn [map List.concat].
    destruct (GrpcClient.metadata r) as [p|].
    + destruct (GrpcClient._proto_to_metadata p) as [md|e].
      * apply IH in H. cbn [fst] in H. rewrite <- app_assoc in H. exact H.
      * rewrite get_fold_raise in H. discriminate H.
    + apply IH in H. cbn [fst] in H. rewrite <- app_assoc in H. exact H.
Qed.

(** The loop when every conversion succeeds. *)
Lemma get_fold_converts (rs : list GrpcClient.GetResponse) :
  Forall converts rs ->
  forall acc,
    exists md,
      fold_left GrpcClient.get_step rs (Ok acc)
      = Ok ((fst acc ++ List.concat (map GrpcClient.data rs))%list, md) /\
      match last_metadata rs with
      | Some p => GrpcClient._proto_to_metadata p = Ok md
      | None => md = snd acc
      end.
Proof.
  induction 1 as [|r t Hr _ IH]; intros acc.
  - exists (snd acc). simpl. rewrite app_nil_r. destruct acc. split; reflexivity.
  - unfold converts in Hr.
    cbn [fold_left map List.concat last_metadata]. rewrite get_step_Ok.
    destruct (GrpcClient.metadata r) as [p|] eqn:Hm.
    + destruct (GrpcClient._proto_to_metadata p) as [m|e] eqn:Hp;
        [|discriminate Hr].
      destruct (IH ((fst acc ++ GrpcClient.data r)%list, m)) as [md [Hf Hl]].
      exists md. split.
      { etransitivity; [exact Hf|]. cbn [fst]. rewrite <- app_assoc.
        reflexivity. }
      cbn [snd] in Hl.
      destruct (last_metadata t); [exact Hl | subst md; exact Hp].
    + destruct (IH ((fst acc ++ GrpcClient.data r)%list, snd acc))
        as [md [Hf Hl]].
      exists md. split.
      { etransitivity; [exact Hf|]. cbn [fst]. rewrite <- app_assoc.
        reflexivity. }
      cbn [snd] in Hl.
      destruct (last_metadata t); exact Hl.
Qed.

(** The loop when some conversion fails. *)
Lemma get_fold_fails (rs : list GrpcClient.GetResponse) :
  Exists (fun r => ~ converts r) rs ->
  forall acc, raises (fold_left GrpcClient.get_step rs (Ok acc)) = true.
Proof.
  induction rs as [|r t IH]; intros Hex acc.
  - inversion Hex.
  - cbn [fold_left]. rewrite get_step_Ok. unfold converts in Hex.
    destruct (GrpcClient.metadata r) as [p|] eqn:Hm.
    + destruct (GrpcClient._proto_to_metadata p) as [m|e] eqn:Hp.
      * apply IH. inversion Hex as [x l Hx | x l Hx]; subst; [|exact Hx].
        rewrite Hm, Hp in Hx. exfalso. apply Hx. reflexivity.
      * rewrite get_fold_raise. reflexivity.
    + apply IH. inversion Hex as [x l Hx | x l Hx]; subst; [|exact Hx].
      rewrite Hm in Hx. exfalso. apply Hx. exact I.
Qed.

(** C3, as stated, fails: of two messages that both bear metadata, the one
    returned by get is the second's, not the first's (the bytes are the
    concatenation in both readings). *)
Lemma C3_later_metadata_replaces_first :
  first_metadata (GrpcClient.responses two_metadata_messages) = Some first_meta /\
  GrpcClient._proto_to_metadata first_meta
  = Ok (mkMetadata (Some "text/plain") None (Some 11) None (Some "first") []) /\
  GrpcClient.get two_metadata_messages
  = Ok (list_byte_of_string "hello world",
        mkMetadata (Some "text/html") None (Some 5) None (Some "second") []) /\
  GrpcClient.get two_metadata_messages
  <> Ok (list_byte_of_string "hello world",
         mkMetadata (Some "text/plain") None (Some 11) None (Some "first") []).
Proof.
  split; [reflexivity|]. split; [reflexivity|]. split; [reflexivity|].
  intros H. vm_compute in H. discriminate H.
Qed.

(** C3 (amended): for any finite sequence of response messages that ends
    without an RPC failure and in which every metadata submessage has a
    modification time that converts to a datetime, or none, get returns the
    concatenation of every message's data fragment in arrival order,
    together with the metadata of the last message that bears a metadata
    submessage (each such message replaces the metadata seen before it), or
    the empty Metadata when none does.  When the modification time of some
    metadata submessage does not convert, get returns nothing and raises. *)
Theorem C3_get_concatenates_data_keeps_last_metadata :
  forall rs : list GrpcClient.GetResponse,
    (Forall converts rs ->
     exists md,
       GrpcClient.get (GrpcClient.mkGetResponses rs None)
       = Ok (List.concat (map GrpcClient.data rs), md) /\
       metadata_or_default (last_metadata rs) = Ok md) /\
    (Exists (fun r => ~ converts r) rs ->
     raises (GrpcClient.get (GrpcClient.mkGetResponses rs None)) = true).
Proof.
  intros rs. split.
  - intros Hc.
    destruct (get_fold_converts Hc ([], Metadata_default)) as [md [Hf Hl]].
    exists md. split.
    + unfold GrpcClient.get.
      cbn [GrpcClient.responses GrpcClient.failure].
      match goal with
      | |- context [fold_left ?f rs ?a] => set (F := fold_left f rs a)
      end.
      assert (HF : F = Ok (List.concat (map GrpcClient.data rs), md))
        by exact Hf.
      rewrite HF. reflexivity.
    + unfold metadata_or_default. destruct (last_metadata rs);
        [exact Hl | subst md; reflexivity].
  - intros Hex. unfold GrpcClient.get.
    cbn [GrpcClient.responses GrpcClient.failure].
    match goal with
    | |- context [fold_left ?f rs ?a] => set (F := fold_left f rs a)
    end.
    assert (HF : raises F = true)
      by exact (get_fold_fails Hex ([], Metadata_default)).
    destruct F; [discriminate HF | reflexivity].
Qed.

(** Two messages with metadata and no modification time, and one message
    whose modification time lies beyond the last year of a datetime. *)
Lemma C3_get_witness :
  GrpcClient.get two_metadata_messages
  = Ok (list_byte_of_string "hello world",
        mkMetadata (Some "text/html") None (Some 5) None (Some "second") []) /\
  raises (GrpcClient.get far_future_download) = true.
Proof.
  split.
  - destruct (proj1 (C3_get_concatenates_data_keeps_last_metadata
                       (GrpcClient.responses two_metadata_messages)))
      as [md [Hg Hm]].
    + repeat constructor.
    + inversion Hm; subst. exact Hg.
  - apply (proj2 (C3_get_concatenates_data_keeps_last_metadata
                    (GrpcClient.responses far_future_download))).
    constructor. unfold converts. simpl. discriminate.
Defined.

(** ** delete *)

(** C5, as stated, fails for the REST adapter: two 500 responses with the
    same status are surfaced as different kinds according to the message in
    their body.  The one whose message mentions "not found" is raised as
    NotFound although the general mapping of a 500 is Server. *)
Lemma C5_rest_delete_rewrites_500_by_content :
  status_code missing_as_500 = status_code disk_failure_500 /\
  raised_kind (RestClient._handle_error missing_as_500) = Some Server /\
  raised_kind (RestClient.delete_body (Responded missing_as_500)) = Some NotFound /\
  raised_kind (RestClient.delete_body (Responded disk_failure_500)) = Some Server.
Proof. repeat split. Qed.

Lemma rest_delete_200 (response : Response) :
  status_code response = 200 ->
  RestClient.delete_body (Responded response)
  = (result <- response_json response ;;
     msg <- json_get result "message" (JStr "Object deleted successfully") ;;
     m <- optional_str msg ;;
     Ok (mkDeleteResponse true m)) /\
  QuicClient.delete (Responded response)
  = RestClient.delete_body (Responded response).
Proof.
  intros Hs.
  unfold QuicClient.delete, RestClient.delete_body, QuicClient.client_call,
    RestClient.session_call.
  rewrite Hs. split; reflexivity.
Qed.

(** C5 (amended): the gRPC and QUIC adapters pass the server's outcome of a
    delete through: a gRPC reply is returned with the success flag and
    message it has, and a failure (a gRPC error, a QUIC status other than
    200) is raised exactly as the adapter's general error mapping raises
    it.  The REST adapter does the same for every failure status other than
    500.  A 200 is, through REST and QUIC alike, either returned with
    success = true or ends in a foreign exception of decoding or
    validation, never in an SDK error; when its body is a JSON object whose
    message is a string or missing, it is returned with that message or the
    default text.  A REST 500 whose body is a JSON object with an ASCII
    string message is raised as NotFound when that message contains "not
    found" or "does not exist" in any letter case, and as the ServerError of
    the general mapping otherwise; a REST 500 whose body is not JSON, or is
    a JSON object without a message, is raised as the general mapping has
    it; a REST 500 whose body is JSON but not an object, or an object whose
    message is not a string, ends in the AttributeError of that
    inspection. *)
Theorem C5_delete_passes_through_except_rest_500 :
  (forall response,
      GrpcClient.delete (GrpcClient.Replied response)
      = Ok (mkDeleteResponse (GrpcClient.del_success response)
                             (Some (GrpcClient.del_message response)))) /\
  (forall error,
      raises (GrpcClient.delete (GrpcClient.Failed error)) = true /\
      raised (GrpcClient.delete (GrpcClient.Failed error))
      = raised (GrpcClient._handle_grpc_error error)) /\
  (forall response,
      status_code response = 200 ->
      QuicClient.delete (Responded response)
      = RestClient.delete_body (Responded response) /\
      match RestClient.delete_body (Responded response) with
      | Ok r => delete_success r = true
      | Raise e => exists name, exn_class e = PyException name
      end) /\
  (forall response d msg,
      status_code response = 200 ->
      json_body response = Some (JDict d) ->
      text_member "message" d msg ->
      RestClient.delete_body (Responded response)
      = Ok (mkDeleteResponse true
              (Some (match msg with
                     | Some m => m
                     | None => "Object deleted successfully"
                     end)))) /\
  (forall response,
      status_code response <> 200 ->
      raises (QuicClient.delete (Responded response)) = true /\
      raised (QuicClient.delete (Responded response))
      = raised (QuicClient._handle_error true response)) /\
  (forall response,
      status_code response <> 200 ->
      status_code response <> 500 ->
      raises (RestClient.delete_body (Responded response)) = true /\
      raised (RestClient.delete_body (Responded response))
      = raised (RestClient._handle_error response)) /\
  (forall response d m,
      status_code response = 500 ->
      json_body response = Some (JDict d) ->
      dict_get "message" d = Some (JStr m) ->
      is_ascii m = true ->
      RestClient.delete_body (Responded response)
      = Raise (if (contains "not found" (lower m)
                   || contains "does not exist" (lower m))%bool
               then new_ObjectNotFoundError "Object not found"
               else new_ServerError (JStr m) (Some 500))) /\
  (forall response,
      status_code response = 500 ->
      json_body response = None
      \/ (exists d, json_body response = Some (JDict d) /\
                    dict_get "message" d = None) ->
      raises (RestClient.delete_body (Responded response)) = true /\
      raised (RestClient.delete_body (Responded response))
      = raised (RestClient._handle_error response)) /\
  (forall response j,
      status_code response = 500 ->
      json_body response = Some j ->
      message_not_readable j = true ->
      RestClient.delete_body (Responded response)
      = Raise (new_PyException "AttributeError")).
Proof.
  repeat apply conj.
  - reflexivity.
  - intros error. unfold GrpcClient.delete.
    destruct (grpc_handle_error_raises error) as [e He]. rewrite He.
    split; reflexivity.
  - intros response Hs. destruct (rest_delete_200 response Hs) as [Hr Hq].
    split; [exact Hq|]. rewrite Hr. unfold response_json.
    destruct (json_body response) as [j|];
      [|simpl; eexists; reflexivity].
    cbn [bind]. unfold json_get.
    destruct j; try (simpl; eexists; reflexivity).
    destruct (dict_get "message" d) as [v|]; cbn [bind].
    + destruct v; simpl; try (eexists; reflexivity); reflexivity.
    + reflexivity.
  - intros response d msg Hs Hj Hm. unfold text_member in Hm.
    rewrite (proj1 (rest_delete_200 response Hs)).
    unfold response_json. rewrite Hj. cbn [bind]. unfold json_get.
    rewrite Hm. destruct msg; reflexivity.
  - intros response Hs.
    unfold QuicClient.delete, QuicClient.client_call.
    rewrite (proj2 (Z.eqb_neq _ _) Hs). rewrite quic_handle_error_eq.
    destruct (rest_handle_error_raises response) as [e He]. rewrite He.
    split; reflexivity.
  - intros response Hs H5.
    unfold RestClient.delete_body, RestClient.session_call.
    rewrite (proj2 (Z.eqb_neq _ _) Hs), (proj2 (Z.eqb_neq _ _) H5).
    destruct (rest_handle_error_raises response) as [e He]. simpl.
    rewrite He. split; reflexivity.
  - intros response d m Hs Hj Hm _.
    unfold RestClient.delete_body, RestClient.session_call,
      RestClient._handle_error, response_json.
    rewrite Hs, Hj. simpl. rewrite Hm. simpl.
    destruct (contains "not found" (lower m)
              || contains "does not exist" (lower m))%bool; reflexivity.
  - intros response Hs Hj.
    unfold RestClient.delete_body, RestClient.session_call,
      RestClient._handle_error, response_json.
    rewrite Hs. destruct Hj as [Hj | [d [Hj Hm]]]; rewrite Hj; simpl.
    + split; reflexivity.
    + rewrite Hm. simpl. split; reflexivity.
  - intros response j Hs Hj Hm.
    unfold RestClient.delete_body, RestClient.session_call, response_json.
    rewrite Hs, Hj. simpl.
    destruct j as [| | | | |d]; try reflexivity.
    simpl in Hm |- *. destruct (dict_get "message" d) as [v|];
      [|discriminate Hm].
    destruct v; try reflexivity. discriminate Hm.
Qed.

(** A 500 that mentions the missing object, a 500 that does not, a 404, a
    200 with a message, a 500 with a null message and a 500 without JSON. *)
Lemma C5_delete_witness :
  RestClient.delete_body (Responded missing_as_500)
  = Raise (new_ObjectNotFoundError "Object not found") /\
  RestClient.delete_body (Responded disk_failure_500)
  = Raise (new_ServerError (JStr "disk failure") (Some 500)) /\
  raised (RestClient.delete_body (Responded missing_404))
  = raised (RestClient._handle_error missing_404) /\
  raised (QuicClient.delete (Responded missing_as_500))
  = raised (QuicClient._handle_error true missing_as_500) /\
  RestClient.delete_body (Responded (message_response 200 "deleted"))
  = Ok (mkDeleteResponse true (Some "deleted")) /\
  RestClient.delete_body (Responded null_message_500)
  = Raise (new_PyException "AttributeError") /\
  raised (RestClient.delete_body (Responded plain_500))
  = raised (RestClient._handle_error plain_500).
Proof.
  destruct C5_delete_passes_through_except_rest_500
    as [_ [_ [_ [H200 [Hquic [Hrest [H500 [Hplain Hattr]]]]]]]].
  repeat apply conj.
  - apply (H500 missing_as_500
                [("message", JStr "Object Not Found")] "Object Not Found");
      reflexivity.
  - apply (H500 disk_failure_500
                [("message", JStr "disk failure")] "disk failure");
      reflexivity.
  - apply (Hrest missing_404); simpl; lia.
  - apply (Hquic missing_as_500); simpl; lia.
  - apply (H200 (message_response 200 "deleted")
                [("message", JStr "deleted")] (Some "deleted"));
      reflexivity.
  - apply (Hattr null_message_500 (JDict [("message", JNull)]));
      reflexivity.
  - apply (Hplain plain_500); [reflexivity | left; reflexivity].
Defined.

(** ** exists *)

Lemma connection_level_only_kind (A : Type) (r : result A) :
  connection_level_only r ->
  raised_kind r = None \/ raised_kind r = Some Connection \/
  raised_kind r = Some Timeout.
Proof.
  destruct r as [a|e]; simpl; [auto|].
  unfold kind_of. intros [H | [H | [name H]]]; rewrite H; simpl; auto.
Qed.

Lemma rest_exists_body_connection_level (o : http_outcome) :
  connection_level_only (RestClient.exists_body o).
Proof.
  destruct o; simpl; auto. right. right. eexists. reflexivity.
Qed.

Lemma quic_exists_connection_level (o : http_outcome) :
  connection_level_only (QuicClient.exists_ o).
Proof.
  destruct o; simpl; auto. right. right. eexists. reflexivity.
Qed.

(** C6, as stated, fails for the gRPC adapter: when the Exists call fails
    with status NOT_FOUND, exists raises a NotFound error, and when it fails
    with INTERNAL it raises a Server error, which is not connection-level. *)
Lemma C6_grpc_exists_raises_not_found :
  ObjectStoreClient.exists_
    (ObjectStoreClient.GRPC (fun _ => GrpcClient.Failed key_not_found)) 0%nat
  = (Raise (new_ObjectNotFoundError "no such key"), 1%nat) /\
  raised_kind (GrpcClient.exists_ (GrpcClient.Failed key_not_found))
  = Some NotFound /\
  raised_kind (GrpcClient.exists_ (GrpcClient.Failed internal_failure))
  = Some Server.
Proof. repeat split. Qed.

(** C6 (amended): through the REST and QUIC adapters exists answers every
    HTTP response with a boolean flag (true exactly for status 200), never
    raises NotFound, and the only SDK errors it raises are ConnectionError
    and TimeoutError (another transport exception propagates untranslated).
    Through the gRPC adapter exists returns the flag of a successful reply,
    and a failed call is raised as the general gRPC error mapping raises
    it. *)
Theorem C6_exists_flag_and_failures :
  (forall session n,
      let r := fst (ObjectStoreClient.exists_ (ObjectStoreClient.REST session) n) in
      connection_level_only r /\ raised_kind r <> Some NotFound) /\
  (forall http n,
      let r := fst (ObjectStoreClient.exists_ (ObjectStoreClient.QUIC http) n) in
      connection_level_only r /\ raised_kind r <> Some NotFound) /\
  (forall response,
      RestClient.exists_body (Responded response)
      = Ok (mkExistsResponse (status_code response =? 200)) /\
      QuicClient.exists_ (Responded response)
      = Ok (mkExistsResponse (status_code response =? 200))) /\
  (forall response,
      GrpcClient.exists_ (GrpcClient.Replied response)
      = Ok (mkExistsResponse (GrpcClient.reply_exists response))) /\
  (forall error,
      raises (GrpcClient.exists_ (GrpcClient.Failed error)) = true /\
      raised (GrpcClient.exists_ (GrpcClient.Failed error))
      = raised (GrpcClient._handle_grpc_error error)).
Proof.
  assert (Hnf : forall r : result ExistsResponse,
             connection_level_only r ->
             connection_level_only r /\ raised_kind r <> Some NotFound).
  { intros r H. split; [exact H|].
    destruct (@connection_level_only_kind _ r H) as [E | [E | E]];
      rewrite E; discriminate. }
  repeat apply conj.
  - intros session n r. apply Hnf. subst r.
    cbn [ObjectStoreClient.exists_]. unfold RestClient.exists_.
    apply (retry_preserves session RestClient.exists_body
             (fun r => connection_level_only r)).
    apply rest_exists_body_connection_level.
  - intros http n r. apply Hnf. subst r. simpl.
    apply quic_exists_connection_level.
  - intros response. split; reflexivity.
  - reflexivity.
  - intros error. unfold GrpcClient.exists_.
    destruct (grpc_handle_error_raises error) as [e He]. rewrite He.
    split; reflexivity.
Qed.

(** C10: through the REST and QUIC adapters, exists on a response whose
    status is anything but 200, a 500 included, raises nothing and returns
    exists = false; the decorated REST method returns it after that single
    exchange. *)
Theorem C10_exists_false_for_non_200 :
  forall response,
    status_code response <> 200 ->
    RestClient.exists_body (Responded response) = Ok (mkExistsResponse false) /\
    QuicClient.exists_ (Responded response) = Ok (mkExistsResponse false) /\
    (forall session n,
        session n = Responded response ->
        ObjectStoreClient.exists_ (ObjectStoreClient.REST session) n
        = (Ok (mkExistsResponse false), S n)) /\
    (forall http n,
        http n = Responded response ->
        ObjectStoreClient.exists_ (ObjectStoreClient.QUIC http) n
        = (Ok (mkExistsResponse false), S n)).
Proof.
  intros response Hs.
  assert (Hb : RestClient.exists_body (Responded response)
               = Ok (mkExistsResponse false)).
  { simpl. rewrite (proj2 (Z.eqb_neq _ _) Hs). reflexivity. }
  repeat apply conj.
  - exact Hb.
  - exact Hb.
  - intros session n Hn. cbn [ObjectStoreClient.exists_].
    unfold RestClient.exists_. apply retry_first_Ok. rewrite Hn. exact Hb.
  - intros http n Hn. cbn [ObjectStoreClient.exists_].
    unfold ObjectStoreClient._run_async, exchange. rewrite Hn.
    f_equal. exact Hb.
Qed.

(** A 500 response to the HEAD request. *)
Lemma C10_exists_false_on_500_witness :
  RestClient.exists_body (Responded disk_failure_500)
  = Ok (mkExistsResponse false) /\
  QuicClient.exists_ (Responded disk_failure_500)
  = Ok (mkExistsResponse false) /\
  ObjectStoreClient.exists_
    (ObjectStoreClient.REST (fun _ => Responded disk_failure_500)) 0%nat
  = (Ok (mkExistsResponse false), 1%nat).
Proof.
  assert (Hs : status_code disk_failure_500 <> 200) by (simpl; discriminate).
  destruct (C10_exists_false_for_non_200 disk_failure_500 Hs) as [Hr [Hq [Hd _]]].
  repeat apply conj; [exact Hr | exact Hq | apply Hd; reflexivity].
Defined.

(** ** Metadata of a download *)


(** What [_proto_to_metadata] makes of a protobuf message. *)
Lemma proto_to_metadata_Ok (p : GrpcClient.ProtoMetadata) (m : Metadata) :
  GrpcClient._proto_to_metadata p = Ok m ->
  content_type m = str_or_None (GrpcClient.proto_content_type p) /\
  content_encoding m = str_or_None (GrpcClient.proto_content_encoding p) /\
  size m = (if GrpcClient.proto_size p =? 0 then None
            else Some (GrpcClient.proto_size p)) /\
  etag m = str_or_None (GrpcClient.proto_etag p) /\
  custom m = GrpcClient.proto_custom p /\
  match GrpcClient.proto_last_modified p with
  | Some t => exists dt, GrpcClient.fromtimestamp t = Ok dt /\
                         last_modified m = Some dt
  | None => last_modified m = None
  end.
Proof.
  unfold GrpcClient._proto_to_metadata.
  destruct (GrpcClient.proto_last_modified p) as [t|].
  - destruct (GrpcClient.fromtimestamp t) as [dt|e]; cbn [bind]; intros H;
      [|discriminate H].
    inversion H; subst; cbn. repeat split. exists dt. split; reflexivity.
  - intros H. inversion H; subst; cbn. repeat split.
Qed.





(** ** Streaming download *)

Lemma chunk_size_pos : (0 < chunk_size)%nat.
Proof. apply Nat.ltb_lt. reflexivity. Qed.

(** Cutting a body into slices loses nothing, given fuel for every slice. *)
Lemma iter_slices_concat (k : nat) :
  (0 < k)%nat ->
  forall fuel body,
    (List.length body <= fuel)%nat ->
    List.concat (iter_slices fuel k body) = body.
Proof.
  intros Hk. induction fuel as [|fuel IH]; intros body Hlen.
  - destruct body; [reflexivity | simpl in Hlen; lia].
  - destruct body as [|b rest]; [reflexivity|].
    change (List.concat (firstn k (b :: rest)
                         :: iter_slices fuel k (skipn k (b :: rest)))
            = b :: rest).
    simpl List.concat. rewrite IH.
    + apply firstn_skipn.
    + rewrite length_skipn.
      change (List.length (b :: rest)) with (S (List.length rest)) in *. lia.
Qed.

Lemma aiter_bytes_concat (response : Response) :
  List.concat (aiter_bytes chunk_size response) = content response.
Proof.
  unfold aiter_bytes. apply iter_slices_concat; [apply chunk_size_pos | lia].
Qed.

(** The delivered pieces make up the body, whatever their sizes. *)
Lemma pieces_concat (sizes : list nat) :
  forall body, List.concat (pieces sizes body) = body.
Proof.
  induction sizes as [|n sizes IH]; intros body.
  - destruct body; [reflexivity|]. simpl. rewrite app_nil_r. reflexivity.
  - cbn [pieces List.concat]. rewrite IH. apply firstn_skipn.
Qed.

Lemma iter_content_concat (response : Response) :
  List.concat (iter_content chunk_size response) = content response.
Proof. unfold iter_content. apply pieces_concat. Qed.

(** Skipping the empty chunks does not change the concatenation. *)
Lemma concat_filter_nonempty (l : list bytes) :
  List.concat (filter nonempty l) = List.concat l.
Proof.
  induction l as [|c l IH]; [reflexivity|].
  destruct c as [|b c]; simpl; [exact IH | rewrite IH; reflexivity].
Qed.

(** A [get] that returns went through a 200 response and returns its body. *)
Lemma rest_get_body_Ok (o : http_outcome) (data : bytes) (md : Metadata) :
  RestClient.get_body o = Ok (data, md) ->
  exists response,
    o = Responded response /\ status_code response = 200 /\
    data = content response.
Proof.
  destruct o as [response| | |]; simpl; try discriminate.
  destruct (status_code response =? 200) eqn:Hs.
  - intros H. exists response. apply Z.eqb_eq in Hs.
    repeat split; try assumption.
    destruct (headers_get "Content-Length" (headers response)) as [v|];
      [destruct (int_of_str v)|]; simpl in H; inversion H; reflexivity.
  - destruct (rest_handle_error_raises response) as [e He]. rewrite He.
    discriminate.
Qed.

Lemma quic_get_eq (o : http_outcome) : QuicClient.get o = RestClient.get_body o.
Proof. reflexivity. Qed.

Lemma rest_get_stream_of_get (o : http_outcome) (data : bytes) (md : Metadata) :
  RestClient.get_body o = Ok (data, md) ->
  ending (RestClient.get_stream o) = None /\
  List.concat (chunks (RestClient.get_stream o)) = data.
Proof.
  intros H. apply rest_get_body_Ok in H.
  destruct H as [response [Ho [Hs Hd]]]. subst o data.
  unfold RestClient.get_stream, RestClient.session_call.
  rewrite Hs. simpl. split; [reflexivity|].
  rewrite concat_filter_nonempty. apply iter_content_concat.
Qed.

Lemma quic_get_stream_of_get (o : http_outcome) (data : bytes) (md : Metadata) :
  QuicClient.get o = Ok (data, md) ->
  ending (QuicClient.get_stream o) = None /\
  List.concat (chunks (QuicClient.get_stream o)) = data.
Proof.
  rewrite quic_get_eq. intros H. apply rest_get_body_Ok in H.
  destruct H as [response [Ho [Hs Hd]]]. subst o data.
  unfold QuicClient.get_stream, QuicClient.client_call.
  rewrite Hs. simpl. split; [reflexivity|].
  rewrite concat_filter_nonempty. apply aiter_bytes_concat.
Qed.

Lemma grpc_get_stream_of_get (rs : GrpcClient.GetResponses)
    (data : bytes) (md : Metadata) :
  GrpcClient.get rs = Ok (data, md) ->
  ending (GrpcClient.get_stream rs) = None /\
  List.concat (chunks (GrpcClient.get_stream rs)) = data.
Proof.
  unfold GrpcClient.get, GrpcClient.get_stream.
  destruct (fold_left GrpcClient.get_step (GrpcClient.responses rs)
                      (Ok ([], Metadata_default))) as [[d m]|x] eqn:Hf;
    cbn [bind]; [|discriminate].
  destruct (GrpcClient.failure rs) as [e|].
  - destruct (grpc_handle_error_raises e) as [x Hx]. rewrite Hx. discriminate.
  - intros H. inversion H; subst. cbn [chunks ending].
    split; [reflexivity|]. rewrite concat_filter_nonempty.
    apply get_fold_data in Hf. cbn [fst app] in Hf. symmetry. exact Hf.
Qed.

(** C7: whenever get returns the bytes of an object through an adapter,
    the stream that get_stream produces from the same exchange (the one get
    got its answer from) ends normally and the concatenation of its chunks
    is those bytes, whatever the size of the object. *)
Theorem C7_get_stream_concatenates_to_get :
  forall (self : ObjectStoreClient.client GrpcClient.GetResponses)
         (n n' : nat) (data : bytes) (md : Metadata),
    ObjectStoreClient.get self n = (Ok (data, md), n') ->
    ending (ObjectStoreClient.get_stream self (pred n')) = None /\
    List.concat (chunks (ObjectStoreClient.get_stream self (pred n'))) = data.
Proof.
  intros self n n' data md H. destruct self as [session | stub | http];
    cbn [ObjectStoreClient.get ObjectStoreClient.get_stream] in *.
  - unfold RestClient.get, retry in H. apply retry_loop_Ok in H.
    destruct H as [_ H]. apply rest_get_stream_of_get with (md := md). exact H.
  - unfold exchange in H. inversion H; subst. simpl.
    apply grpc_get_stream_of_get with (md := md). assumption.
  - unfold ObjectStoreClient._run_async, exchange in H. inversion H; subst.
    simpl. apply quic_get_stream_of_get with (md := md). assumption.
Qed.

(** An empty object, a REST download that succeeds on the second attempt,
    a gRPC download in three messages, and a body of 1 MiB. *)
Lemma C7_get_stream_witness :
  List.concat
    (chunks (ObjectStoreClient.get_stream
               (ObjectStoreClient.REST (fun _ => Responded empty_200)) 0%nat))
  = [] /\
  List.concat
    (chunks (ObjectStoreClient.get_stream
               (ObjectStoreClient.REST flaky_session) 1%nat))
  = list_byte_of_string "hello" /\
  List.concat
    (chunks (ObjectStoreClient.get_stream
               (ObjectStoreClient.GRPC (fun _ => three_messages)) 0%nat))
  = list_byte_of_string "hello" /\
  List.concat
    (chunks (ObjectStoreClient.get_stream
               (ObjectStoreClient.QUIC (fun _ => Responded one_mib_200)) 0%nat))
  = one_mib.
Proof.
  repeat apply conj.
  - apply (@C7_get_stream_concatenates_to_get
             (ObjectStoreClient.REST (fun _ => Responded empty_200))
             0%nat 1%nat [] (mkMetadata None None (Some 0) None None [])).
    reflexivity.
  - apply (@C7_get_stream_concatenates_to_get
             (ObjectStoreClient.REST flaky_session)
             0%nat 2%nat (list_byte_of_string "hello")
             (mkMetadata (Some "text/plain") None (Some 5) None
                         (Some "abc123") [])).
    reflexivity.
  - apply (@C7_get_stream_concatenates_to_get
             (ObjectStoreClient.GRPC (fun _ => three_messages))
             0%nat 1%nat (list_byte_of_string "hello")
             (mkMetadata (Some "text/plain") None (Some 11) None
                         (Some "first") [])).
    reflexivity.
  - apply (@C7_get_stream_concatenates_to_get
             (ObjectStoreClient.QUIC (fun _ => Responded one_mib_200))
             0%nat 1%nat one_mib
             (mkMetadata None None (Some 1048576) None None [])).
    reflexivity.
Defined.

(* ================================================================== *)
(** * Further properties of the adapters *)

(** ** The retry loop in general *)

Section RetryBounds.
Context {X A : Type}.
Variable transport : nat -> X.
Variable body : X -> result A.

(** A retried call makes at least one and at most [max 1 k] exchanges. *)
Theorem retry_attempts_bounded (k n : nat) :
  (n < snd (retry k (exchange transport body) n) <= n + Nat.max 1 k)%nat.
Proof.
  unfold retry.
  destruct (retry_loop_some_attempt transport body (pred k) n) as [j [Hj Hr]].
  rewrite Hr. cbn [snd]. lia.
Qed.

Lemma retry_loop_recovers (j : nat) :
  forall more n a,
    (j <= more)%nat ->
    (forall i, (i < j)%nat -> raises (body (transport (n + i)%nat)) = true) ->
    body (transport (n + j)%nat) = Ok a ->
    retry_loop more (exchange transport body) n = (Ok a, S (n + j)).
Proof.
  induction j as [|j IH]; intros more n a Hle Hfail Hok;
    rewrite retry_loop_exchange.
  - rewrite Nat.add_0_r in Hok. rewrite Hok, Nat.add_0_r. reflexivity.
  - assert (H0 : raises (body (transport n)) = true).
    { specialize (Hfail O). rewrite Nat.add_0_r in Hfail. apply Hfail. lia. }
    destruct (body (transport n)) as [x|e]; [discriminate H0|].
    destruct more as [|more]; [lia|].
    replace (S (n + S j)) with (S (S n + j)) by lia.
    apply IH.
    + lia.
    + intros i Hi. replace (S n + i)%nat with (n + S i)%nat by lia.
      apply Hfail. lia.
    + replace (S n + j)%nat with (n + S j)%nat by lia. exact Hok.
Qed.

(** If the first [j] attempts raise, whatever they raise, and the next one
    returns, with [j] below the attempt limit, the retried call returns that
    value after [j + 1] exchanges and none of the errors is seen. *)
Theorem retry_recovers (k j n : nat) (a : A) :
  (j < Nat.max 1 k)%nat ->
  (forall i, (i < j)%nat -> raises (body (transport (n + i)%nat)) = true) ->
  body (transport (n + j)%nat) = Ok a ->
  retry k (exchange transport body) n = (Ok a, S (n + j)).
Proof.
  intros Hj Hfail Hok. unfold retry.
  apply retry_loop_recovers; [lia | exact Hfail | exact Hok].
Qed.

Lemma retry_loop_exhausted (more : nat) :
  forall n,
    (forall i, (i <= more)%nat -> raises (body (transport (n + i)%nat)) = true) ->
    retry_loop more (exchange transport body) n
    = (body (transport (n + more)%nat), S (n + more)).
Proof.
  induction more as [|more IH]; intros n Hfail; rewrite retry_loop_exchange.
  - rewrite Nat.add_0_r. destruct (body (transport n)); reflexivity.
  - assert (H0 : raises (body (transport n)) = true).
    { specialize (Hfail O). rewrite Nat.add_0_r in Hfail. apply Hfail. lia. }
    destruct (body (transport n)) as [x|e]; [discriminate H0|].
    rewrite IH.
    + replace (S n + more)%nat with (n + S more)%nat by lia. reflexivity.
    + intros i Hi. replace (S n + i)%nat with (n + S i)%nat by lia.
      apply Hfail. lia.
Qed.

(** If every attempt up to the limit raises, the retried call makes exactly
    [max 1 k] exchanges and raises what the last of them raised; the errors
    of the earlier attempts are dropped. *)
Theorem retry_exhausted_raises_last (k n : nat) :
  (forall i, (i < Nat.max 1 k)%nat ->
             raises (body (transport (n + i)%nat)) = true) ->
  retry k (exchange transport body) n
  = (body (transport (n + pred (Nat.max 1 k))%nat), (n + Nat.max 1 k)%nat).
Proof.
  intros Hfail. unfold retry. rewrite retry_loop_exhausted.
  - f_equal; [f_equal; f_equal; lia | lia].
  - intros i Hi. apply Hfail. lia.
Qed.
End RetryBounds.

(** Two failed exchanges and a 201 on the third. *)
Lemma retry_recovers_witness :
  RestClient.put third_time_lucky 0%nat
  = (Ok (mkPutResponse true (Some "ok") None), 3%nat).
Proof.
  apply (@retry_recovers _ _ third_time_lucky RestClient.put_body
           3%nat 2%nat 0%nat (mkPutResponse true (Some "ok") None)).
  - simpl. lia.
  - intros i Hi. destruct i as [|[|i]]; [reflexivity | reflexivity | lia].
  - reflexivity.
Defined.

(** Three timeouts in a row. *)
Lemma retry_exhausted_witness :
  RestClient.exists_ always_timeout 0%nat
  = (Raise (new_TimeoutError (JStr "Request timed out") None), 3%nat).
Proof.
  apply (@retry_exhausted_raises_last _ _ always_timeout
           RestClient.exists_body 3%nat 0%nat).
  intros i Hi. reflexivity.
Defined.

(** ** HTTP error mapping *)

Lemma handle_error_status (response : Response) :
  exists e,
    RestClient._handle_error response = Raise e /\
    exn_status_code e = Some (status_code response) /\
    exn_class e =
      (if status_code response =? 404 then ObjectNotFoundError
       else if status_code response =? 401 then AuthenticationError
       else if status_code response =? 400 then ValidationError
       else if status_code response >=? 500 then ServerError
       else ObjectStoreError).
Proof.
  unfold RestClient._handle_error.
  destruct (status_code response =? 404) eqn:H404.
  { apply Z.eqb_eq in H404. rewrite H404. eexists. repeat split. }
  destruct (status_code response =? 401) eqn:H401.
  { apply Z.eqb_eq in H401. rewrite H401. eexists. repeat split. }
  destruct (status_code response =? 400) eqn:H400.
  { apply Z.eqb_eq in H400. rewrite H400.
    destruct (try_except_Exception
                (error_data <- response_json response ;;
                 json_get error_data "message" (JStr "Validation error"))
                (Ok (JStr (str_or (text response) "Validation error"))))
      eqn:Ht.
    - eexists. repeat split.
    - unfold try_except_Exception in Ht.
      destruct (error_data <- response_json response ;;
                json_get error_data "message" (JStr "Validation error"));
        discriminate Ht. }
  destruct (status_code response >=? 500) eqn:H500.
  { destruct (try_except_Exception
                (error_data <- response_json response ;;
                 json_get error_data "message" (JStr "Server error"))
                (Ok (JStr (str_or (text response) "Server error"))))
      eqn:Ht.
    - eexists. repeat split.
    - unfold try_except_Exception in Ht.
      destruct (error_data <- response_json response ;;
                json_get error_data "message" (JStr "Server error"));
        discriminate Ht. }
  eexists. repeat split.
Qed.

(** With the body of the response unread, only the two branches that do
    not look at it raise an SDK error. *)
Lemma quic_handle_error_unread (response : Response) :
  QuicClient._handle_error false response
  = Raise (if status_code response =? 404
           then new_ObjectNotFoundError "Object not found"
           else if status_code response =? 401
           then new_AuthenticationError "Authentication failed"
           else new_PyException "httpx.ResponseNotRead").
Proof.
  unfold QuicClient._handle_error.
  destruct (status_code response =? 404); [reflexivity|].
  destruct (status_code response =? 401); [reflexivity|].
  destruct (status_code response =? 400); [reflexivity|].
  destruct (status_code response >=? 500); reflexivity.
Qed.

(** [_handle_error] never returns.  The REST one, and the QUIC one on a
    response whose body has been read, raise for every response an error
    that carries the status code of the response and whose class is fixed by
    that status alone (the body only contributes the message).  The QUIC one
    on a response whose body has not been read (the case of get_stream)
    raises the same NotFound and Authentication errors for 404 and 401, and
    httpx's ResponseNotRead for every other status. *)
Theorem handle_error_raises_with_status (response : Response) :
  (exists e,
      RestClient._handle_error response = Raise e /\
      QuicClient._handle_error true response = Raise e /\
      exn_status_code e = Some (status_code response) /\
      exn_class e =
        (if status_code response =? 404 then ObjectNotFoundError
         else if status_code response =? 401 then AuthenticationError
         else if status_code response =? 400 then ValidationError
         else if status_code response >=? 500 then ServerError
         else ObjectStoreError)) /\
  QuicClient._handle_error false response
  = Raise (if status_code response =? 404
           then new_ObjectNotFoundError "Object not found"
           else if status_code response =? 401
           then new_AuthenticationError "Authentication failed"
           else new_PyException "httpx.ResponseNotRead").
Proof.
  split; [|apply quic_handle_error_unread].
  destruct (handle_error_status response) as [e [He [Hs Hc]]].
  exists e. split; [exact He|]. split; [|split; assumption].
  etransitivity; [apply quic_handle_error_eq | exact He].
Qed.

(** ** Success statuses *)

Ltac stuck_on_handle_error response H :=
  let e := fresh "e" in
  let He := fresh "He" in
  destruct (rest_handle_error_raises response) as [e He];
  unfold bind in H; rewrite He in H; discriminate H.

Ltac through_binds H :=
  unfold bind in H;
  repeat match type of H with
         | context [match ?x with _ => _ end] =>
             destruct x; try discriminate H
         end;
  inversion H; subst; clear H.

(** A REST or QUIC operation that returns at all returns success = true, and
    only for the statuses it accepts: 201 for put, 200 for delete, 200 or
    201 for add_policy and the REST update_metadata, 200 for the QUIC
    update_metadata.  Every other status, and every transport failure, is
    raised; no call returns a response with success = false. *)
Theorem http_operations_return_only_success (o : http_outcome) :
  (forall r, RestClient.put_body o = Ok r \/ QuicClient.put o = Ok r ->
             put_success r = true /\
             exists response, o = Responded response /\
                              status_code response = 201) /\
  (forall r, RestClient.delete_body o = Ok r \/ QuicClient.delete o = Ok r ->
             delete_success r = true /\
             exists response, o = Responded response /\
                              status_code response = 200) /\
  (forall r, RestClient.add_policy_body o = Ok r
             \/ RestClient.update_metadata_body o = Ok r ->
             policy_success r = true /\
             exists response, o = Responded response /\
                              (status_code response = 200
                               \/ status_code response = 201)) /\
  (forall r, QuicClient.update_metadata o = Ok r ->
             policy_success r = true /\
             exists response, o = Responded response /\
                              status_code response = 200).
Proof.
  destruct o as [response| | |];
    try (repeat apply conj; intros r H; try destruct H as [H | H];
         discriminate H).
  repeat apply conj.
  - intros r H.
    assert (H' : RestClient.put_body (Responded response) = Ok r)
      by (destruct H as [H | H]; exact H).
    clear H. unfold RestClient.put_body, RestClient.session_call in H'.
    destruct (status_code response =? 201) eqn:Hs.
    + apply Z.eqb_eq in Hs. through_binds H'.
      split; [reflexivity | eauto].
    + stuck_on_handle_error response H'.
  - intros r H.
    destruct H as [H | H].
    + unfold RestClient.delete_body, RestClient.session_call in H.
      destruct (status_code response =? 200) eqn:Hs.
      * apply Z.eqb_eq in Hs. through_binds H. split; [reflexivity | eauto].
      * destruct (rest_handle_error_raises response) as [e He].
        unfold bind in H. rewrite He in H.
        destruct (if status_code response =? 500 then _ else _);
          discriminate H.
    + unfold QuicClient.delete, QuicClient.client_call in H.
      rewrite quic_handle_error_eq in H.
      destruct (status_code response =? 200) eqn:Hs.
      * apply Z.eqb_eq in Hs. through_binds H. split; [reflexivity | eauto].
      * stuck_on_handle_error response H.
  - intros r H. destruct H as [H | H].
    + unfold RestClient.add_policy_body, RestClient.session_call in H.
      destruct (status_code response =? 200) eqn:H2;
        [|destruct (status_code response =? 201) eqn:H1]; simpl in H.
      * apply Z.eqb_eq in H2. through_binds H. split; [reflexivity | eauto].
      * apply Z.eqb_eq in H1. through_binds H. split; [reflexivity | eauto].
      * stuck_on_handle_error response H.
    + unfold RestClient.update_metadata_body, RestClient.session_call in H.
      destruct (status_code response =? 200) eqn:H2;
        [|destruct (status_code response =? 201) eqn:H1].
      * apply Z.eqb_eq in H2. through_binds H. split; [reflexivity | eauto].
      * apply Z.eqb_eq in H1. through_binds H. split; [reflexivity | eauto].
      * stuck_on_handle_error response H.
  - intros r H.
    unfold QuicClient.update_metadata, QuicClient.client_call in H.
    rewrite quic_handle_error_eq in H.
    destruct (status_code response =? 200) eqn:Hs.
    + apply Z.eqb_eq in Hs. through_binds H. split; [reflexivity | eauto].
    + stuck_on_handle_error response H.
Qed.

(** A 201 answer to a put. *)
Lemma http_operations_success_witness :
  put_success (mkPutResponse true (Some "ok") None) = true /\
  exists response, Responded created = Responded response /\
                   status_code response = 201.
Proof.
  apply (proj1 (http_operations_return_only_success (Responded created))
               (mkPutResponse true (Some "ok") None)).
  left. reflexivity.
Defined.

(** ** Shape of a streamed download *)

Lemma iter_slices_chunk_bounds (k : nat) :
  (0 < k)%nat ->
  forall fuel body,
    Forall (fun c : bytes => (0 < List.length c <= k)%nat)
           (iter_slices fuel k body).
Proof.
  intros Hk. induction fuel as [|fuel IH]; intros body; simpl.
  - constructor.
  - destruct body as [|b rest]; [constructor|].
    constructor; [|apply IH].
    rewrite length_firstn.
    change (List.length (b :: rest)) with (S (List.length rest)). lia.
Qed.

Lemma iter_slices_nil (fuel k : nat) : iter_slices fuel k [] = [].
Proof. destruct fuel; reflexivity. Qed.

(** Every slice that is followed by another one is full. *)
Lemma iter_slices_full_but_last (k : nat) :
  (0 < k)%nat ->
  forall fuel body i,
    (S i < List.length (iter_slices fuel k body))%nat ->
    List.length (nth i (iter_slices fuel k body) []) = k.
Proof.
  intros Hk. induction fuel as [|fuel IH]; intros body i Hi.
  - simpl in Hi. lia.
  - destruct body as [|b rest]; [simpl in Hi; lia|].
    change (iter_slices (S fuel) k (b :: rest))
      with (firstn k (b :: rest) :: iter_slices fuel k (skipn k (b :: rest)))
      in *.
    destruct i as [|i].
    + cbn [nth]. rewrite length_firstn.
      destruct (skipn k (b :: rest)) as [|x xs] eqn:Hsk.
      * rewrite iter_slices_nil in Hi. simpl in Hi. lia.
      * assert (Hl : List.length (skipn k (b :: rest)) = S (List.length xs))
          by (rewrite Hsk; reflexivity).
        rewrite length_skipn in Hl. lia.
    + cbn [nth]. apply IH. cbn [List.length] in Hi. lia.
Qed.

Lemma filter_nonempty_id (l : list bytes) :
  Forall (fun c : bytes => (0 < List.length c)%nat) l ->
  filter nonempty l = l.
Proof.
  induction 1 as [|c l Hc _ IH]; [reflexivity|].
  destruct c; [simpl in Hc; lia|]. simpl. rewrite IH. reflexivity.
Qed.

Lemma pieces_of_nothing (sizes : list nat) :
  filter nonempty (pieces sizes []) = [].
Proof.
  induction sizes as [|n sizes IH]; [reflexivity|].
  cbn [pieces]. rewrite firstn_nil, skipn_nil. exact IH.
Qed.

Lemma filter_nonempty_all (l : list bytes) :
  Forall (fun c : bytes => (0 < List.length c)%nat) (filter nonempty l).
Proof.
  induction l as [|c l IH]; [constructor|].
  destruct c as [|b c]; [exact IH|].
  cbn [filter nonempty]. constructor; [simpl; lia | exact IH].
Qed.

(** The chunks of a streamed download of a 200 response.  Through the QUIC
    adapter they are the 8192-byte slices of the body: none is empty, none
    is longer than 8192 bytes, every chunk but the last is exactly 8192
    bytes long.  Through the REST adapter they are the non-empty pieces in
    which the connection delivers the body, whatever their sizes.  In both,
    the chunks make up the body and an empty body gives no chunk at all. *)
Theorem get_stream_chunk_sizes (response : Response) :
  status_code response = 200 ->
  let qs := chunks (QuicClient.get_stream (Responded response)) in
  let cs := chunks (RestClient.get_stream (Responded response)) in
  Forall (fun c : bytes => (0 < List.length c <= chunk_size)%nat) qs /\
  (forall i, (S i < List.length qs)%nat ->
             List.length (nth i qs []) = chunk_size) /\
  cs = filter nonempty (pieces (delivery response) (content response)) /\
  Forall (fun c : bytes => (0 < List.length c)%nat) cs /\
  List.concat qs = content response /\
  List.concat cs = content response /\
  (content response = [] -> qs = [] /\ cs = []).
Proof.
  intros Hs qs cs.
  assert (Hqs : qs = aiter_bytes chunk_size response).
  { subst qs. unfold QuicClient.get_stream, QuicClient.client_call.
    rewrite Hs. simpl. apply filter_nonempty_id.
    eapply Forall_impl; [|apply (iter_slices_chunk_bounds chunk_size_pos)].
    simpl. intros c Hc. lia. }
  assert (Hcs : cs = filter nonempty (iter_content chunk_size response)).
  { subst cs. unfold RestClient.get_stream, RestClient.session_call.
    rewrite Hs. reflexivity. }
  repeat apply conj.
  - rewrite Hqs. apply (iter_slices_chunk_bounds chunk_size_pos).
  - intros i Hi. rewrite Hqs in *.
    apply (iter_slices_full_but_last chunk_size_pos). exact Hi.
  - exact Hcs.
  - rewrite Hcs. apply filter_nonempty_all.
  - rewrite Hqs. apply aiter_bytes_concat.
  - rewrite Hcs, concat_filter_nonempty. apply iter_content_concat.
  - intros He. split.
    + rewrite Hqs. unfold aiter_bytes. rewrite He. reflexivity.
    + rewrite Hcs. unfold iter_content. rewrite He. apply pieces_of_nothing.
Qed.

(** A body of 1 MiB through QUIC, a body of five bytes that arrives in
    pieces of 3, 0, 1 and 1 bytes through REST, and an empty body. *)
Lemma get_stream_chunk_sizes_witness :
  Forall (fun c : bytes => (0 < List.length c <= chunk_size)%nat)
         (chunks (QuicClient.get_stream (Responded one_mib_200))) /\
  chunks (RestClient.get_stream (Responded trickled_200))
  = [list_byte_of_string "hel"; list_byte_of_string "l";
     list_byte_of_string "o"] /\
  chunks (RestClient.get_stream (Responded empty_200)) = [].
Proof.
  repeat apply conj.
  - apply (get_stream_chunk_sizes one_mib_200). reflexivity.
  - apply (get_stream_chunk_sizes trickled_200). reflexivity.
  - apply (get_stream_chunk_sizes empty_200); reflexivity.
Defined.

(** ** Failed downloads *)

(** When the exchange does not produce a 200 response, the REST and QUIC
    streamed downloads yield no chunk.  The REST one ends with exactly the
    error that get raises for the same exchange.  The QUIC one does so for
    a timeout, a connection failure, another exception and the statuses 404
    and 401; for every other status it ends with httpx's ResponseNotRead,
    because the error mapping reads the body of a response that was opened
    as a stream and has not been read. *)
Theorem get_stream_fails_like_get (o : http_outcome) :
  (forall response, o = Responded response -> status_code response <> 200) ->
  raises (RestClient.get_body o) = true /\
  chunks (RestClient.get_stream o) = [] /\
  ending (RestClient.get_stream o) = raised (RestClient.get_body o) /\
  QuicClient.get o = RestClient.get_body o /\
  chunks (QuicClient.get_stream o) = [] /\
  ending (QuicClient.get_stream o)
  = match o with
    | Responded response =>
        if ((status_code response =? 404)
            || (status_code response =? 401))%bool
        then raised (QuicClient.get o)
        else Some (new_PyException "httpx.ResponseNotRead")
    | _ => raised (QuicClient.get o)
    end.
Proof.
  intros Hns. destruct o as [response| | |];
    try (repeat apply conj; reflexivity).
  specialize (Hns response eq_refl). apply Z.eqb_neq in Hns.
  unfold QuicClient.get_stream, QuicClient.get, QuicClient.client_call,
    RestClient.get_stream, RestClient.get_body, RestClient.session_call.
  rewrite Hns. rewrite quic_handle_error_unread.
  change (QuicClient._handle_error true response)
    with (RestClient._handle_error response).
  destruct (status_code response =? 404) eqn:H404.
  { unfold RestClient._handle_error. rewrite H404.
    repeat apply conj; reflexivity. }
  destruct (status_code response =? 401) eqn:H401.
  { unfold RestClient._handle_error. rewrite H404, H401.
    repeat apply conj; reflexivity. }
  destruct (rest_handle_error_raises response) as [e He].
  rewrite He. repeat apply conj; reflexivity.
Qed.

(** A 404, a timeout and a 500. *)
Lemma get_stream_fails_like_get_witness :
  chunks (RestClient.get_stream (Responded missing_404)) = [] /\
  ending (RestClient.get_stream (Responded missing_404))
  = Some (new_ObjectNotFoundError "Object not found") /\
  ending (RestClient.get_stream TimeoutExc)
  = raised (RestClient.get_body TimeoutExc) /\
  ending (QuicClient.get_stream (Responded plain_500))
  = Some (new_PyException "httpx.ResponseNotRead").
Proof.
  assert (H404 : forall response,
             Responded missing_404 = Responded response ->
             status_code response <> 200).
  { intros response H. inversion H; subst. simpl. discriminate. }
  assert (Ht : forall response,
             TimeoutExc = Responded response -> status_code response <> 200).
  { intros response H. discriminate H. }
  assert (H500 : forall response,
             Responded plain_500 = Responded response ->
             status_code response <> 200).
  { intros response H. inversion H; subst. simpl. discriminate. }
  destruct (get_stream_fails_like_get H404) as [_ [Hc [He _]]].
  destruct (get_stream_fails_like_get Ht) as [_ [_ [He' _]]].
  destruct (get_stream_fails_like_get H500) as [_ [_ [_ [_ [_ Hq]]]]].
  repeat apply conj; [exact Hc | exact He | exact He' | exact Hq].
Defined.

(** When a gRPC download fails after some messages have arrived, get raises
    and returns none of the data: it raises the mapped error when the
    metadata of every message that arrived converts, and otherwise the
    exception of the first conversion that fails, which comes before the
    failure of the call.  The streamed download has by then yielded every
    non-empty fragment that arrived, in order, and ends with the mapped
    error. *)
Theorem grpc_download_failure (rs : GrpcClient.GetResponses)
    (e : GrpcClient.RpcError) :
  GrpcClient.failure rs = Some e ->
  raises (GrpcClient.get rs) = true /\
  (Forall converts (GrpcClient.responses rs) ->
   raised (GrpcClient.get rs) = raised (GrpcClient._handle_grpc_error e)) /\
  (forall before r p x after,
      GrpcClient.responses rs = (before ++ r :: after)%list ->
      Forall converts before ->
      GrpcClient.metadata r = Some p ->
      GrpcClient._proto_to_metadata p = Raise x ->
      GrpcClient.get rs = Raise x) /\
  ending (GrpcClient.get_stream rs)
  = raised (GrpcClient._handle_grpc_error e) /\
  chunks (GrpcClient.get_stream rs)
  = filter nonempty (map GrpcClient.data (GrpcClient.responses rs)) /\
  List.concat (chunks (GrpcClient.get_stream rs))
  = List.concat (map GrpcClient.data (GrpcClient.responses rs)).
Proof.
  intros Hf. destruct (grpc_handle_error_raises e) as [x Hx].
  repeat apply conj.
  - unfold GrpcClient.get. rewrite Hf, Hx.
    destruct (fold_left GrpcClient.get_step (GrpcClient.responses rs)
                        (Ok ([], Metadata_default))); reflexivity.
  - intros Hc. unfold GrpcClient.get.
    destruct (get_fold_converts Hc ([], Metadata_default)) as [md [Hfold _]].
    match goal with
    | |- context [fold_left ?f ?l ?a] => set (F := fold_left f l a)
    end.
    assert (HF : F = Ok (([] ++ List.concat
                             (map GrpcClient.data (GrpcClient.responses rs)))%list,
                         md)) by exact Hfold.
    rewrite HF, Hf, Hx. reflexivity.
  - intros before r p y after Hr Hc Hm Hp. unfold GrpcClient.get.
    rewrite Hr, fold_left_app.
    destruct (get_fold_converts Hc ([], Metadata_default)) as [md [Hfold _]].
    match goal with
    | |- context [fold_left ?f before ?a] => set (F := fold_left f before a)
    end.
    assert (HF : F = Ok (([] ++ List.concat (map GrpcClient.data before))%list,
                         md)) by exact Hfold.
    rewrite HF. cbn [fold_left]. rewrite get_step_Ok, Hm, Hp.
    rewrite get_fold_raise. reflexivity.
  - unfold GrpcClient.get_stream. rewrite Hf. reflexivity.
  - reflexivity.
  - unfold GrpcClient.get_stream. cbn [chunks]. apply concat_filter_nonempty.
Qed.

Lemma grpc_download_failure_witness :
  raised (GrpcClient.get broken_download)
  = Some (new_ServerError (JStr "backend down") None) /\
  List.concat (chunks (GrpcClient.get_stream broken_download))
  = list_byte_of_string "hello".
Proof.
  destruct (@grpc_download_failure broken_download internal_failure eq_refl)
    as [_ [Hr [_ [_ [_ Hc]]]]].
  split; [|exact Hc].
  apply Hr. repeat constructor.
Defined.

(** A 200 response whose Content-Length header is ASCII text that int()
    rejects makes the REST and QUIC get raise a ValueError, which is no SDK
    error, although the body arrived; the streamed download of the same
    response does not look at the header and delivers the whole body. *)
Theorem get_rejects_malformed_content_length (response : Response) (v : string) :
  status_code response = 200 ->
  headers_get "Content-Length" (headers response) = Some v ->
  is_ascii v = true ->
  int_of_str v = None ->
  RestClient.get_body (Responded response) = Raise (new_PyException "ValueError") /\
  QuicClient.get (Responded response) = Raise (new_PyException "ValueError") /\
  kind_of (new_PyException "ValueError") = None /\
  ending (RestClient.get_stream (Responded response)) = None /\
  List.concat (chunks (RestClient.get_stream (Responded response)))
  = content response /\
  ending (QuicClient.get_stream (Responded response)) = None /\
  List.concat (chunks (QuicClient.get_stream (Responded response)))
  = content response.
Proof.
  intros Hs Hh _ Hv.
  assert (Hg : RestClient.get_body (Responded response)
               = Raise (new_PyException "ValueError")).
  { unfold RestClient.get_body, RestClient.session_call.
    rewrite Hs, Hh, Hv. reflexivity. }
  assert (Hst : RestClient.get_stream (Responded response)
                = mkStream (filter nonempty (iter_content chunk_size response))
                           None).
  { unfold RestClient.get_stream, RestClient.session_call.
    rewrite Hs. reflexivity. }
  assert (Hqt : QuicClient.get_stream (Responded response)
                = mkStream (filter nonempty (aiter_bytes chunk_size response))
                           None).
  { unfold QuicClient.get_stream, QuicClient.client_call.
    rewrite Hs. reflexivity. }
  repeat apply conj.
  - exact Hg.
  - exact Hg.
  - reflexivity.
  - rewrite Hst. reflexivity.
  - rewrite Hst. cbn [chunks]. rewrite concat_filter_nonempty.
    apply iter_content_concat.
  - rewrite Hqt. reflexivity.
  - rewrite Hqt. cbn [chunks]. rewrite concat_filter_nonempty.
    apply aiter_bytes_concat.
Qed.

Lemma get_rejects_malformed_content_length_witness :
  RestClient.get_body (Responded bad_length_200)
  = Raise (new_PyException "ValueError") /\
  List.concat (chunks (RestClient.get_stream (Responded bad_length_200)))
  = list_byte_of_string "hello".
Proof.
  destruct (@get_rejects_malformed_content_length bad_length_200 "five"
              eq_refl eq_refl eq_refl eq_refl) as [Hg [_ [_ [_ [Hc _]]]]].
  split; [exact Hg | exact Hc].
Defined.

(** ** delete on a 500 with an unexpected body *)

(** When a 500 response to a REST delete has a JSON body that is not an
    object, or an object whose message is not a string, the look for "not
    found" in the message fails with an AttributeError that the handler for
    (ValueError, KeyError) lets through: delete raises that foreign
    exception instead of the ServerError the general mapping gives for the
    same response, and the decorated method does so after three attempts. *)
Theorem rest_delete_500_unreadable_message (response : Response) (j : json) :
  status_code response = 500 ->
  json_body response = Some j ->
  message_not_readable j = true ->
  RestClient.delete_body (Responded response)
  = Raise (new_PyException "AttributeError") /\
  (exists e, RestClient._handle_error response = Raise e /\
             exn_class e = ServerError) /\
  (forall session n,
      (forall i, session i = Responded response) ->
      RestClient.delete session n
      = (Raise (new_PyException "AttributeError"), (n + 3)%nat)).
Proof.
  intros Hs Hj Hm.
  assert (Hd : RestClient.delete_body (Responded response)
               = Raise (new_PyException "AttributeError")).
  { unfold RestClient.delete_body, RestClient.session_call, response_json.
    rewrite Hs, Hj. simpl.
    destruct j as [| | | | |d]; try reflexivity.
    simpl in Hm |- *. destruct (dict_get "message" d) as [v|];
      [|discriminate Hm].
    destruct v; try reflexivity. discriminate Hm. }
  repeat apply conj.
  - exact Hd.
  - destruct (handle_error_status response) as [e [He [_ Hc]]].
    exists e. split; [exact He|]. rewrite Hc, Hs. reflexivity.
  - intros session n Hall. unfold RestClient.delete, retry.
    rewrite retry_loop_exhausted.
    + simpl. rewrite Hall, Hd. f_equal. lia.
    + intros i _. rewrite Hall, Hd. reflexivity.
Qed.

Lemma rest_delete_500_unreadable_message_witness :
  RestClient.delete_body (Responded null_message_500)
  = Raise (new_PyException "AttributeError") /\
  RestClient.delete (fun _ => Responded null_message_500) 0%nat
  = (Raise (new_PyException "AttributeError"), 3%nat).
Proof.
  destruct (@rest_delete_500_unreadable_message null_message_500
              (JDict [("message", JNull)]) eq_refl eq_refl eq_refl)
    as [Hd [_ Hr]].
  split; [exact Hd | apply (Hr (fun _ => Responded null_message_500) 0%nat)].
  intros i. reflexivity.
Defined.

(** ** gRPC metadata conversion *)

(** Reading a protobuf metadata message (when the conversion returns) and
    writing the result back gives the same message except that the
    modification time is gone: [_metadata_to_proto] never writes
    [last_modified]. *)
Theorem metadata_proto_roundtrip (p : GrpcClient.ProtoMetadata) (m : Metadata) :
  GrpcClient._proto_to_metadata p = Ok m ->
  GrpcClient._metadata_to_proto (Some m)
  = Some (GrpcClient.mkProtoMetadata
            (GrpcClient.proto_content_type p)
            (GrpcClient.proto_content_encoding p)
            (GrpcClient.proto_size p)
            (GrpcClient.proto_etag p)
            (GrpcClient.proto_custom p)
            None).
Proof.
  intros H. apply proto_to_metadata_Ok in H.
  destruct H as [Hct [Hce [Hsz [Het [Hcu _]]]]].
  unfold GrpcClient._metadata_to_proto.
  rewrite Hct, Hce, Hsz, Het, Hcu. f_equal. f_equal.
  - destruct (GrpcClient.proto_content_type p); reflexivity.
  - destruct (GrpcClient.proto_content_encoding p); reflexivity.
  - destruct (GrpcClient.proto_size p =? 0) eqn:Hz;
      [apply Z.eqb_eq in Hz; rewrite Hz|]; reflexivity.
  - destruct (GrpcClient.proto_etag p); reflexivity.
Qed.

(** A message with a modification time of 2023-11-14. *)
Lemma metadata_proto_roundtrip_witness :
  GrpcClient._metadata_to_proto
    (Some (mkMetadata (Some "text/plain") None (Some 5) (Some 1700000000)
                      (Some "abc123") []))
  = Some (GrpcClient.mkProtoMetadata "text/plain" EmptyString 5 "abc123" []
                                     None).
Proof.
  apply (@metadata_proto_roundtrip dated_meta
           (mkMetadata (Some "text/plain") None (Some 5) (Some 1700000000)
                       (Some "abc123") [])).
  reflexivity.
Defined.

(** Writing a Metadata to protobuf and reading it back returns it unchanged
    except for last_modified, which is lost, provided no text field is the
    empty string and the size is not 0 (those come back as absent). *)
Theorem metadata_roundtrip_through_proto (m : Metadata) :
  content_type m <> Some EmptyString ->
  content_encoding m <> Some EmptyString ->
  etag m <> Some EmptyString ->
  size m <> Some 0 ->
  option_map GrpcClient._proto_to_metadata
             (GrpcClient._metadata_to_proto (Some m))
  = Some (Ok (mkMetadata (content_type m) (content_encoding m) (size m) None
                         (etag m) (custom m))).
Proof.
  destruct m as [ct ce sz lm et cu]. simpl. intros Hct Hce Het Hsz.
  unfold GrpcClient._proto_to_metadata. simpl. f_equal. f_equal. f_equal.
  - destruct ct as [[|a s]|]; try reflexivity. contradiction Hct; reflexivity.
  - destruct ce as [[|a s]|]; try reflexivity. contradiction Hce; reflexivity.
  - destruct sz as [z|]; [|reflexivity].
    destruct (z =? 0) eqn:Hz; [|reflexivity].
    apply Z.eqb_eq in Hz. subst. contradiction Hsz; reflexivity.
  - destruct et as [[|a s]|]; try reflexivity. contradiction Het; reflexivity.
Qed.

Lemma metadata_roundtrip_through_proto_witness :
  option_map GrpcClient._proto_to_metadata
             (GrpcClient._metadata_to_proto (Some report_meta))
  = Some (Ok (mkMetadata (Some "application/pdf") (Some "gzip") (Some 1024)
                         None (Some "abc123") [("author", "test")])).
Proof.
  apply (@metadata_roundtrip_through_proto report_meta);
    simpl; discriminate.
Defined.

(** ** gRPC lifecycle policies *)

(** What the gRPC add_policy sends for a policy, read back as get_policies
    reads it, is the policy with its id, prefix, action, retention and
    destination settings intact, but always enabled, without
    days_after_creation, and with an empty destination type turned into an
    absent one: the enabled flag does not travel over gRPC. *)
Theorem grpc_policy_roundtrip (policy : LifecyclePolicy.t) (r : Z) :
  LifecyclePolicy.retention_seconds policy = Some r ->
  GrpcClient.get_policies_policy (GrpcClient.add_policy_proto policy)
  = LifecyclePolicy.mk
      (LifecyclePolicy.id policy) (LifecyclePolicy.prefix policy) (Some r)
      (LifecyclePolicy.action policy)
      (match LifecyclePolicy.destination_type policy with
       | Some s => str_or_None s
       | None => None
       end)
      (LifecyclePolicy.destination_settings policy) None true.
Proof.
  destruct policy as [i pf rs a dt ds d en]. simpl. intros Hr. subst rs.
  unfold GrpcClient.get_policies_policy, GrpcClient.add_policy_proto,
    LifecyclePolicy.init, LifecyclePolicy.model_post_init. simpl.
  destruct dt; reflexivity.
Qed.

Lemma grpc_policy_roundtrip_witness :
  GrpcClient.get_policies_policy (GrpcClient.add_policy_proto archive_policy)
  = LifecyclePolicy.mk "p1" "logs/" (Some 604800) "archive" (Some "glacier")
                       [("region", "us-east-1")] None true /\
  LifecyclePolicy.enabled archive_policy = false.
Proof.
  split; [|reflexivity].
  apply (@grpc_policy_roundtrip archive_policy 604800). reflexivity.
Defined.

(** Every policy in the result of the gRPC get_policies is enabled, has a
    retention and no days_after_creation, and the policies come in the
    order of the reply, one per message. *)
Theorem grpc_get_policies_all_enabled (response : GrpcClient.GetPoliciesReply) :
  exists r,
    GrpcClient.get_policies (GrpcClient.Replied response) = Ok r /\
    List.length (GrpcClient.policies r)
    = List.length (GrpcClient.reply_policies response) /\
    map LifecyclePolicy.id (GrpcClient.policies r)
    = map GrpcClient.proto_id (GrpcClient.reply_policies response) /\
    Forall (fun p => LifecyclePolicy.enabled p = true /\
                     LifecyclePolicy.days_after_creation p = None /\
                     LifecyclePolicy.retention_seconds p <> None)
           (GrpcClient.policies r).
Proof.
  eexists. split; [reflexivity|]. simpl.
  repeat apply conj.
  - apply length_map.
  - rewrite map_map. reflexivity.
  - apply Forall_forall. intros p Hp. apply in_map_iff in Hp.
    destruct Hp as [q [Hq _]]. subst p.
    repeat split. discriminate.
Qed.

(** ** health *)

Lemma upper_lower_ascii (c : ascii) : upper_ascii (lower_ascii c) = upper_ascii c.
Proof.
  destruct c as [[] [] [] [] [] [] [] []]; reflexivity.
Qed.

Lemma lower_upper_ascii (c : ascii) : lower_ascii (upper_ascii c) = lower_ascii c.
Proof.
  destruct c as [[] [] [] [] [] [] [] []]; reflexivity.
Qed.

Lemma upper_lower (s : string) : upper (lower s) = upper s.
Proof.
  induction s as [|c s IH]; [reflexivity|].
  simpl. rewrite upper_lower_ascii, IH. reflexivity.
Qed.

Lemma lower_upper (s : string) : lower (upper s) = lower s.
Proof.
  induction s as [|c s IH]; [reflexivity|].
  simpl. rewrite lower_upper_ascii, IH. reflexivity.
Qed.

Lemma eqb_upper_lower (s u l : string) :
  lower u = l -> upper l = u ->
  String.eqb (upper s) u = String.eqb (lower s) l.
Proof.
  intros Hl Hu.
  destruct (String.eqb_spec (upper s) u) as [E | E];
    destruct (String.eqb_spec (lower s) l) as [F | F]; try reflexivity.
  - exfalso. apply F. rewrite <- Hl, <- E. symmetry. apply lower_upper.
  - exfalso. apply E. rewrite <- Hu, <- F. symmetry. apply upper_lower.
Qed.

Lemma of_value_upper (s : string) :
  match HealthStatus.of_value (upper s) with
  | Some st => st
  | None => HealthStatus.UNKNOWN
  end = status_of_text s.
Proof.
  unfold HealthStatus.of_value, status_of_text.
  rewrite (@eqb_upper_lower s "SERVING" "serving" eq_refl eq_refl).
  rewrite (@eqb_upper_lower s "NOT_SERVING" "not_serving" eq_refl eq_refl).
  destruct (String.eqb_spec (upper s) "UNKNOWN") as [E | E].
  - assert (H : lower s = "unknown")
      by (rewrite <- lower_upper, E; reflexivity).
    rewrite H. reflexivity.
  - destruct (String.eqb (lower s) "serving");
      destruct (String.eqb (lower s) "not_serving"); reflexivity.
Qed.

(** The REST and QUIC health read an ASCII status text of a 200 body
    without regard to letter case: "serving" in any case is SERVING,
    "not_serving" in any case is NOT_SERVING, any other ASCII text, and a
    missing status, is UNKNOWN and never an error; the message is passed on
    when present. *)
Theorem health_reads_status_case_insensitively
    (str : exn -> string) (response : Response) (d : list (string * json))
    (status message : option string) :
  status_code response = 200 ->
  json_body response = Some (JDict d) ->
  text_member "status" d status ->
  match status with Some s => is_ascii s = true | None => True end ->
  text_member "message" d message ->
  let expected :=
    mkHealthResponse
      (match status with
       | Some s => status_of_text s
       | None => HealthStatus.UNKNOWN
       end)
      message in
  RestClient.health_body (Responded response) = Ok expected /\
  QuicClient.health str (Responded response) = Ok expected.
Proof.
  intros Hs Hj Hst _ Hm. cbv zeta. unfold text_member in Hst, Hm.
  assert (Hh : health_status_of (JDict d)
               = Ok (match status with
                     | Some s => status_of_text s
                     | None => HealthStatus.UNKNOWN
                     end)).
  { unfold health_status_of, json_get. rewrite Hst.
    destruct status as [s|]; simpl.
    - rewrite <- of_value_upper.
      destruct (HealthStatus.of_value (upper s)); reflexivity.
    - reflexivity. }
  assert (Hmsg : (msg <- json_get (JDict d) "message" JNull ;; optional_str msg)
                 = Ok message).
  { unfold json_get. rewrite Hm. destruct message; reflexivity. }
  unfold bind in Hmsg.
  unfold QuicClient.health, RestClient.health_body, RestClient.session_call,
    response_json.
  rewrite Hs, Hj. cbn [Z.eqb Pos.eqb bind].
  rewrite Hh. cbn [bind].
  destruct (json_get (JDict d) "message" JNull) as [msg|e];
    [|discriminate Hmsg].
  cbn [bind]. rewrite Hmsg. split; reflexivity.
Qed.

Lemma health_reads_status_witness :
  RestClient.health_body (Responded healthy_200)
  = Ok (mkHealthResponse HealthStatus.SERVING (Some "healthy")) /\
  QuicClient.health str_of_message (Responded healthy_200)
  = Ok (mkHealthResponse HealthStatus.SERVING (Some "healthy")).
Proof.
  apply (@health_reads_status_case_insensitively str_of_message healthy_200
           [("status", JStr "Serving"); ("message", JStr "healthy")]
           (Some "Serving") (Some "healthy")); reflexivity.
Defined.

(** The QUIC health raises nothing but TimeoutError and ConnectionError: a
    response with a status other than 200, which makes the REST health raise
    the error of the general mapping with that status attached, comes out of
    the QUIC health as a ConnectionError whose message wraps that error. *)
Theorem quic_health_raises_connection_errors_only (str : exn -> string) :
  (forall o e,
      QuicClient.health str o = Raise e ->
      (exn_class e = TimeoutError /\ o = TimeoutExc) \/
      exn_class e = ConnectionError) /\
  (forall response,
      status_code response <> 200 ->
      exists e,
        RestClient.health_body (Responded response) = Raise e /\
        exn_status_code e = Some (status_code response) /\
        QuicClient.health str (Responded response)
        = Raise (new_ConnectionError
                   (JStr ("Connection failed: " ++ str e)) None)).
Proof.
  split.
  - intros o e H. destruct o as [response| | |]; simpl in H.
    + right.
      match type of H with
      | match ?b with _ => _ end = _ => destruct b
      end; [discriminate H | inversion H; reflexivity].
    + left. inversion H. split; reflexivity.
    + right. inversion H. reflexivity.
    + right. inversion H. reflexivity.
  - intros response Hs. apply Z.eqb_neq in Hs.
    destruct (handle_error_status response) as [e [Hr [Hc _]]].
    exists e. unfold RestClient.health_body, RestClient.session_call,
      QuicClient.health.
    change (QuicClient._handle_error true response)
      with (RestClient._handle_error response).
    rewrite Hs, Hr. repeat split. exact Hc.
Qed.

Lemma quic_health_witness :
  exists e,
    RestClient.health_body (Responded disk_failure_500) = Raise e /\
    exn_status_code e = Some 500 /\
    QuicClient.health str_of_message (Responded disk_failure_500)
    = Raise (new_ConnectionError
               (JStr ("Connection failed: " ++ str_of_message e)) None).
Proof.
  apply (proj2 (quic_health_raises_connection_errors_only str_of_message)
               disk_failure_500).
  simpl. discriminate.
Defined.

(** ** update_metadata *)

(** A 201 answer to update_metadata is a success through the REST adapter,
    with the same result as a 200, but through the QUIC adapter it is raised
    as the base ObjectStoreError of an unmapped status. *)
Theorem update_metadata_on_201 (response : Response)
    (d : list (string * json)) (msg : option string) :
  status_code response = 201 ->
  json_body response = Some (JDict d) ->
  text_member "message" d msg ->
  RestClient.update_metadata_body (Responded response)
  = Ok (mkPolicyResponse true
          (Some (match msg with
                 | Some m => m
                 | None => "Metadata updated successfully"
                 end))) /\
  QuicClient.update_metadata (Responded response)
  = Raise (new_ObjectStoreError
             (JStr ("HTTP 201: " ++ text response)) (Some 201)).
Proof.
  unfold text_member. intros Hs Hj Hm. split.
  - unfold RestClient.update_metadata_body, RestClient.session_call,
      response_json.
    rewrite Hs, Hj. simpl. rewrite Hm. destruct msg; reflexivity.
  - unfold QuicClient.update_metadata, QuicClient.client_call,
      QuicClient._handle_error.
    rewrite Hs. reflexivity.
Qed.

Lemma update_metadata_on_201_witness :
  RestClient.update_metadata_body (Responded created_201)
  = Ok (mkPolicyResponse true (Some "created")) /\
  raised_kind (QuicClient.update_metadata (Responded created_201)) = None /\
  raises (QuicClient.update_metadata (Responded created_201)) = true.
Proof.
  destruct (@update_metadata_on_201 created_201
              [("message", JStr "created")] (Some "created")
              eq_refl eq_refl eq_refl) as [Hr Hq].
  split; [exact Hr|]. rewrite Hq. split; reflexivity.
Defined.

(** ** Lifecycle policy construction and serialization *)

(** [model_post_init] changes nothing but retention_seconds, leaves a policy
    with a retention, and running it again changes nothing more: a policy
    built by the constructor always has a retention. *)
Theorem lifecycle_post_init_sets_retention (p : LifecyclePolicy.t) :
  let q := LifecyclePolicy.model_post_init p in
  (exists r, LifecyclePolicy.retention_seconds q = Some r) /\
  LifecyclePolicy.model_post_init q = q /\
  q = LifecyclePolicy.set_retention_seconds p
        (LifecyclePolicy.retention_seconds q).
Proof.
  destruct p as [i pf rs a dt ds d en].
  destruct rs as [r|], d as [days|]; simpl;
    (split; [eexists; reflexivity | split; reflexivity]).
Qed.

(** What add_policy sends over REST and QUIC, the dump of a constructed
    policy without None values, lists id, prefix, retention_seconds and
    action, then destination_type exactly when one was given, then
    destination_settings and enabled; retention_seconds is always there and
    is an integer. *)
Theorem lifecycle_dump_keys
    (id prefix action : string) (retention : option Z)
    (dtype : option string) (dsettings : list (string * string))
    (days : option Z) (enabled : bool) :
  let p := LifecyclePolicy.init id prefix retention action dtype dsettings
                                days enabled in
  map fst (LifecyclePolicy.model_dump true p)
  = (["id"; "prefix"; "retention_seconds"; "action"]
     ++ (match dtype with Some _ => ["destination_type"] | None => [] end)
     ++ ["destination_settings"; "enabled"])%list /\
  exists r, dict_get "retention_seconds" (LifecyclePolicy.model_dump true p)
            = Some (JInt r) /\
            LifecyclePolicy.retention_seconds p = Some r.
Proof.
  destruct retention as [r|], days as [d|], dtype as [t|]; simpl;
    (split; [reflexivity | eexists; split; reflexivity]).
Qed.

(** ** URL construction *)

Lemma rstrip_char_not_suffix (c : ascii) (s : string) :
  forall t, rstrip_char c s <> t ++ String c EmptyString.
Proof.
  induction s as [|a s IH]; intros t; simpl.
  - destruct t; discriminate.
  - destruct (rstrip_char c s) as [|b r] eqn:Hr.
    + destruct (Ascii.eqb_spec a c) as [E | E].
      * destruct t; discriminate.
      * destruct t as [|x t]; simpl.
        -- intros H. inversion H. contradiction.
        -- destruct t; discriminate.
    + destruct t as [|x t]; simpl.
      * discriminate.
      * intros H. inversion H. apply (IH t). assumption.
Qed.

Lemma append_cancel_l (s a b : string) : s ++ a = s ++ b -> a = b.
Proof.
  induction s as [|c s IH]; simpl; intros H; [exact H|].
  inversion H. apply IH. assumption.
Qed.

(** [_url], the same in the REST and the QUIC adapter: the base URL kept by
    the constructor never ends with a slash; slashes leading the path are
    ignored; a path that, without them, does not start with the API version
    is placed under /api/<version>/, and one that does start with it, or
    any path when the version is empty, directly under the base URL. *)
Theorem url_construction (base version path : string) :
  let self := RestClient.init base version in
  let p := lstrip_char "/" path in
  (forall t, RestClient.base_url self <> t ++ "/") /\
  RestClient._url self (String "/" path) = RestClient._url self path /\
  (version <> EmptyString -> prefix version p = false ->
   RestClient._url self path
   = RestClient.base_url self ++ "/api/" ++ version ++ "/" ++ p) /\
  (version = EmptyString \/ prefix version p = true ->
   RestClient._url self path = RestClient.base_url self ++ "/" ++ p) /\
  QuicClient._url (QuicClient.init base version) path
  = RestClient._url self path.
Proof.
  cbv zeta. repeat apply conj.
  - intros t. apply rstrip_char_not_suffix.
  - reflexivity.
  - intros Hv Hp. unfold RestClient._url. cbn [RestClient.api_version
      RestClient.base_url RestClient.init].
    rewrite Hp. destruct (String.eqb_spec version EmptyString) as [E | E];
      [contradiction | reflexivity].
  - intros H. unfold RestClient._url. cbn [RestClient.api_version
      RestClient.base_url RestClient.init].
    destruct H as [H | H].
    + subst version. reflexivity.
    + rewrite H. rewrite andb_false_r. reflexivity.
  - reflexivity.
Qed.

(** The URL of the unit tests, and an object URL for any base and key. *)
Lemma url_construction_witness :
  RestClient._url (RestClient.init "http://localhost:8080/" "v1")
                  "/objects/test"
  = "http://localhost:8080/api/v1/objects/test" /\
  RestClient._url (RestClient.init "http://localhost:8080" "v1") "v1/objects"
  = "http://localhost:8080/v1/objects".
Proof.
  split.
  - apply (proj1 (proj2 (proj2 (url_construction "http://localhost:8080/"
                                  "v1" "/objects/test"))));
      [discriminate | reflexivity].
  - apply (proj1 (proj2 (proj2 (proj2 (url_construction
                                  "http://localhost:8080" "v1"
                                  "v1/objects"))))).
    right. reflexivity.
Defined.

(** The health endpoint is not the same in the two HTTP adapters: the REST
    adapter asks <base>/health, outside the versioned API, while the QUIC
    adapter builds the URL with [_url] and so asks <base>/api/<version>/health
    whenever a version is set that "health" does not start with. *)
Theorem health_urls_differ (base version : string) :
  version <> EmptyString ->
  prefix version "health" = false ->
  RestClient.health_url (RestClient.init base version)
  = rstrip_char "/" base ++ "/health" /\
  QuicClient.health_url (QuicClient.init base version)
  = rstrip_char "/" base ++ "/api/" ++ version ++ "/health" /\
  RestClient.health_url (RestClient.init base version)
  <> QuicClient.health_url (QuicClient.init base version).
Proof.
  intros Hv Hp.
  assert (Hq : QuicClient.health_url (QuicClient.init base version)
               = rstrip_char "/" base ++ "/api/" ++ version ++ "/health").
  { unfold QuicClient.health_url, QuicClient._url.
    cbn [QuicClient.api_version QuicClient.base_url QuicClient.init
         lstrip_char Ascii.eqb Bool.eqb].
    rewrite Hp. destruct (String.eqb_spec version EmptyString) as [E | E];
      [contradiction | reflexivity]. }
  repeat apply conj.
  - reflexivity.
  - exact Hq.
  - rewrite Hq. unfold RestClient.health_url.
    cbn [RestClient.base_url RestClient.init].
    intros H. apply append_cancel_l in H.
    discriminate H.
Qed.

(** The default version and a local base URL. *)
Lemma health_urls_differ_witness :
  RestClient.health_url (RestClient.init "http://localhost:8080/" "v1")
  = "http://localhost:8080/health" /\
  QuicClient.health_url (QuicClient.init "https://localhost:4433" "v1")
  = "https://localhost:4433/api/v1/health".
Proof.
  split.
  - apply (@health_urls_differ "http://localhost:8080/" "v1");
      [discriminate | reflexivity].
  - apply (@health_urls_differ "https://localhost:4433" "v1");
      [discriminate | reflexivity].
Defined.
